(** * Class-wise calibration experiments: results tables, orderings and notebooks

    The repository is a set of Jupyter notebooks.  Each experiment notebook
    evaluates calibration methods by cross validation, stores the tidy
    results table as [results.csv] and plots it; the combining notebook reads
    every [results.csv] back, filters, orders the method variants, plots and
    writes four summary tables.

    A pandas data frame of results is embedded as a list of rows, a notebook
    as a program of a small state-and-error monad over the output directory,
    and the helpers of [src.utils], which the notebooks only call, are either
    arguments of the notebook programs or, where a property is about the
    helper itself, definitions modelled from the specification. *)

From Stdlib Require Import String Ascii List Arith ZArith Bool Lia.
From Stdlib Require Import Permutation Sorted QArith Qfield.
Import ListNotations.

Local Open Scope nat_scope.
Local Open Scope string_scope.
Local Open Scope list_scope.

(** ** Python results and errors *)

Inductive PyError : Type :=
| IndexError            (* list index out of range *)
| ValueError            (* pd.concat of no objects *)
| UndefinedVariable     (* a query names a column the frame does not have *)
| EmptyGroup (variant : string)
| ZeroBaseline (variant : string)
| Raised (msg : string).

Inductive result (A : Type) : Type :=
| Ok (a : A)
| Err (e : PyError).

Arguments Ok {A} a.
Arguments Err {A} e.

Definition rbind {A B} (r : result A) (k : A -> result B) : result B :=
  match r with
  | Ok a => k a
  | Err e => Err e
  end.

Fixpoint rmap {A B} (f : A -> result B) (l : list A) : result (list B) :=
  match l with
  | [] => Ok []
  | x :: t => rbind (f x) (fun y => rbind (rmap f t) (fun ys => Ok (y :: ys)))
  end.

(** ** Strings as pandas uses them here *)

(** [str.lower] on the ASCII range; bytes above 127 (the UTF-8 encoding of any
    other character) are left alone, and no such character lowers to one of
    the letters of the word looked for below. *)
Definition ascii_lower (c : ascii) : ascii :=
  let n := nat_of_ascii c in
  if ((65 <=? n) && (n <=? 90))%nat then ascii_of_nat (n + 32) else c.

Fixpoint str_lower (s : string) : string :=
  match s with
  | EmptyString => EmptyString
  | String c t => String (ascii_lower c) (str_lower t)
  end.

(** [str.contains(sub)] for a pattern without regular-expression
    metacharacters: [sub] occurs at some position of [s]. *)
Fixpoint str_contains (sub s : string) : bool :=
  if String.prefix sub s then true
  else match s with
       | EmptyString => false
       | String _ t => str_contains sub t
       end.

(** Python's [len] on the names used here. *)
Definition len (s : string) : nat := String.length s.

(** ** The results table *)

(** One Result Record: a row of the tidy results frame. *)
Record Row : Type := mkRow {
  Model : string;
  Dataset : string;
  Calibration_Method : string;
  Reduction_Method : string;
  Metric : string;
  Fold : nat;
  Score : Q
}.

Definition Table : Type := list Row.

(** [results_df.query("(Metric != 'condition') & (Metric != 'weak_condition')")] *)
Definition not_diagnostic (r : Row) : bool :=
  negb (Metric r =? "condition") && negb (Metric r =? "weak_condition").

Definition query_not_diagnostic (df : Table) : Table :=
  filter not_diagnostic df.

(** [~results_df["Reduction Method"].str.lower().str.contains("weighted")] *)
Definition not_weighted (r : Row) : bool :=
  negb (str_contains "weighted" (str_lower (Reduction_Method r))).

Definition drop_weighted (df : Table) : Table :=
  filter not_weighted df.

(** The two filtering statements of the combining notebook, in order. *)
Definition filter_results (df : Table) : Table :=
  drop_weighted (query_not_diagnostic df).

(** [results_df[results_df["Metric"] == m]] *)
Definition metric_is (m : string) (df : Table) : Table :=
  filter (fun r => Metric r =? m) df.

(** [Series.unique()]: the distinct values in order of first appearance,
    found with a table of the values already seen. *)
Fixpoint unique_from {A} (eqb : A -> A -> bool) (seen : list A) (l : list A)
  : list A :=
  match l with
  | [] => []
  | x :: t =>
      if existsb (eqb x) seen then unique_from eqb seen t
      else x :: unique_from eqb (x :: seen) t
  end.

Definition unique (l : list string) : list string := unique_from String.eqb [] l.

(** ** The display ordering of the variants *)

(** [sorted(l, key=len)]: Python's sort is stable, so its result is the one
    an insertion sort gives that puts a name in front of the first name that
    is at least as long, taking the names from the right. *)
Fixpoint insert_by_len (x : string) (l : list string) : list string :=
  match l with
  | [] => [x]
  | y :: t => if (len x <=? len y)%nat then x :: y :: t else y :: insert_by_len x t
  end.

Fixpoint sorted_by_len (l : list string) : list string :=
  match l with
  | [] => []
  | x :: t => insert_by_len x (sorted_by_len t)
  end.

(** [[l[0]] + sorted(l[1:], key=len)]; [l[0]] raises on an empty list. *)
Definition pin_first_sort_rest (l : list string) : result (list string) :=
  match l with
  | [] => Err IndexError
  | first :: rest => Ok (first :: sorted_by_len rest)
  end.

(** The cell every notebook runs:
    [reduction_methods_order = df["Reduction Method"].unique().tolist()]
    [reduction_methods_order = [reduction_methods_order[0]] + sorted(reduction_methods_order[1:], key=len)] *)
Definition reduction_methods_order (df : Table) : result (list string) :=
  pin_first_sort_rest (unique (map Reduction_Method df)).

(** ** Summary tables *)

(** One Summary Record: the statistics over the folds of one variant in one
    (model, dataset, base method, metric) group.  The standard deviation is
    carried by its square, which stays rational; [s_baseline_mean] is the
    recorded mean of the baseline variant, present in a relative-change
    summary only. *)
Record SummaryRecord : Type := mkSummary {
  s_Model : string;
  s_Dataset : string;
  s_Calibration_Method : string;
  s_Metric : string;
  s_Reduction_Method : string;
  s_mean : Q;
  s_std_squared : Q;
  s_baseline_mean : option Q
}.

Definition SummaryTable : Type := list SummaryRecord.

(** The signature of [create_summary_table_with_absolute_values_and_stddev]
    and of [create_summary_table_with_relative_change_and_stddev]:
    a results frame and the variant ordering give a summary frame, or raise. *)
Definition SummaryFunction : Type := Table -> list string -> result SummaryTable.

(** ** The output directory *)

(** A path below [OUTPUT_DIR], component by component. *)
Definition Path : Type := list string.

Definition OUTPUT_DIR : Path := [].

Definition path_div (p : Path) (name : string) : Path := p ++ [name].

Notation "p // name" := (path_div p name) (at level 40, left associativity).

Fixpoint path_eqb (p q : Path) : bool :=
  match p, q with
  | [], [] => true
  | a :: p', b :: q' => (a =? b) && path_eqb p' q'
  | _, _ => false
  end.

Definition path_name (p : Path) : string := last p "".

Inductive Frame : Type :=
| ResultsFrame (df : Table)
| SummaryFrame (s : SummaryTable).

Inductive File : Type :=
| CsvFile (sep : string) (index : bool) (content : Frame)
| PlotFile (df : Table) (hue_order : list string).

Record PlotCall : Type := mkPlotCall {
  plot_df : Table;
  plot_hue_order : list string;
  plot_output_file : Path
}.

(** What a notebook run can change: the files below [OUTPUT_DIR], in
    directory-listing order, and the plotting calls made so far. *)
Record World : Type := mkWorld {
  files : list (Path * File);
  plot_calls : list PlotCall
}.

Fixpoint lookup_file (p : Path) (fs : list (Path * File)) : option File :=
  match fs with
  | [] => None
  | (q, f) :: t => if path_eqb p q then Some f else lookup_file p t
  end.

(** Writing replaces the file at [p] or creates it.  Where a new path goes in
    the listing is a choice of the model; among real files the file system
    decides in which order a listing returns them. *)
Fixpoint write_file (p : Path) (f : File) (fs : list (Path * File))
  : list (Path * File) :=
  match fs with
  | [] => [(p, f)]
  | (q, g) :: t => if path_eqb p q then (q, f) :: t else (q, g) :: write_file p f t
  end.

(** ** Notebook programs *)

Definition Notebook (A : Type) : Type := World -> result A * World.

Definition ret {A} (a : A) : Notebook A := fun w => (Ok a, w).

Definition bind {A B} (c : Notebook A) (k : A -> Notebook B) : Notebook B :=
  fun w => match c w with
           | (Ok a, w') => k a w'
           | (Err e, w') => (Err e, w')
           end.

Definition lift {A} (r : result A) : Notebook A := fun w => (r, w).

Declare Scope notebook_scope.
Delimit Scope notebook_scope with notebook.

Notation "x <- c ;; k" := (bind c (fun x => k))
  (at level 61, c at next level, right associativity) : notebook_scope.
Notation "c ;; k" := (bind c (fun _ => k))
  (at level 61, right associativity) : notebook_scope.

Local Open Scope notebook_scope.

Fixpoint for_each {A B} (f : A -> Notebook B) (l : list A) : Notebook (list B) :=
  match l with
  | [] => ret []
  | x :: t => y <- f x ;; ys <- for_each f t ;; ret (y :: ys)
  end.

(** [frame.to_csv(path, sep=sep, index=index)] *)
Definition to_csv (content : Frame) (path : Path) (sep : string) (index : bool)
  : Notebook unit :=
  fun w => (Ok tt, mkWorld (write_file path (CsvFile sep index content) (files w))
                           (plot_calls w)).

(** [pd.read_csv(path, sep=sep)] of a results file.  Read with another
    separator than it was written with, a line is one single column and the
    first query on a named column fails; the model raises at the read.  A
    file holds the frame that was written, not its text: what the text form
    does to a value (the digits of a number, a name that reads as missing)
    is not modelled. *)
Definition parse_csv (file : option File) (sep : string) : result Table :=
  match file with
  | Some (CsvFile sep' _ (ResultsFrame df)) =>
      if sep' =? sep then Ok df else Err UndefinedVariable
  | Some _ => Err UndefinedVariable
  | None => Err (Raised "FileNotFoundError")
  end.

Definition read_csv (path : Path) (sep : string) : Notebook Table :=
  fun w => (parse_csv (lookup_file path (files w)) sep, w).

(** [OUTPUT_DIR.rglob(name)]: the files of that name at any depth. *)
Definition rglob (name : string) : Notebook (list Path) :=
  fun w => (Ok (map fst (filter (fun pf => path_name (fst pf) =? name) (files w))), w).

(** [pd.concat(frames)]; raises on an empty list of frames. *)
Definition pd_concat (frames : list Table) : result Table :=
  match frames with
  | [] => Err ValueError
  | _ => Ok (concat frames)
  end.

(** Modelled from the spec: [plot_evaluation_results_from_dataframe] of
    [src.utils] is not among the sources; by the specification it renders one
    chart of the frame it is given, with the given hue order, into the output
    file.  The call is logged as well. *)
Definition plot_evaluation_results_from_dataframe
  (df : Table) (hue_order : list string) (output_file : Path) : Notebook unit :=
  fun w => (Ok tt, mkWorld (write_file output_file (PlotFile df hue_order) (files w))
                           (plot_calls w ++ [mkPlotCall df hue_order output_file])).

(** ** The experiment notebooks, from the results frame on *)

(** The cells "reduction_methods_order", "Save Results" and "Plots" that the
    DeiT, DistilBERT, ResNet56 and LightGBM notebooks share word for word,
    up to the directory and the name of the plot. *)
Definition save_and_plot (dir plot_name : string) (results_df : Table)
  : Notebook unit :=
  let output_dir := OUTPUT_DIR // dir in
  let output_file := output_dir // "results.csv" in
  reduction_methods_order <- lift (reduction_methods_order results_df) ;;
  to_csv (ResultsFrame results_df) output_file ";" false ;;
  let results_df := query_not_diagnostic results_df in
  plot_evaluation_results_from_dataframe
    results_df reduction_methods_order (output_dir // plot_name).

Definition deit_rvl_cdip : Table -> Notebook unit :=
  save_and_plot "deit_rvl_cdip" "evaluation_ECE_deit_rvl_cdip.eps".

Definition distilbert_imdb : Table -> Notebook unit :=
  save_and_plot "distilbert_imdb" "evaluation_ECE_distilbert_imdb.eps".

Definition resnet56_cifar10 : Table -> Notebook unit :=
  save_and_plot "resnet56_cifar10" "evaluation_ECE_resnet56_cifar10.eps".

Definition lightgbm_sorel20m : Table -> Notebook unit :=
  save_and_plot "lightgbm_sorel20m" "evaluation_ECE_lightgbm_sorel20m.eps".

(** The random forest notebook evaluates two datasets; the ordering is taken
    from the balanced frame alone. *)
Definition random_forest_synthetic
  (rf_balanced_results_df rf_imbalanced_results_df : Table) : Notebook unit :=
  let output_dir := OUTPUT_DIR // "random_forest_synthetic" in
  reduction_methods_order <- lift (reduction_methods_order rf_balanced_results_df) ;;
  results_df <- lift (pd_concat [rf_balanced_results_df; rf_imbalanced_results_df]) ;;
  let output_file := output_dir // "results.csv" in
  to_csv (ResultsFrame results_df) output_file ";" false ;;
  let results_df := query_not_diagnostic results_df in
  plot_evaluation_results_from_dataframe
    (filter (fun r => (Dataset r =? "Synthetic Balanced")
                      && negb (Calibration_Method r =? "TemperatureScaling"))
            results_df)
    reduction_methods_order
    (output_dir // "evaluation_ECE_rf_balanced.eps") ;;
  plot_evaluation_results_from_dataframe
    (filter (fun r => (Dataset r =? "Synthetic Imbalanced")
                      && negb (Calibration_Method r =? "TemperatureScaling"))
            results_df)
    reduction_methods_order
    (output_dir // "evaluation_ECE_rf_balanced.eps") ;;
  plot_evaluation_results_from_dataframe
    (filter (fun r => Calibration_Method r =? "TemperatureScaling") results_df)
    reduction_methods_order
    (output_dir // "evaluation_ECE_rf_temperature_scaling.eps").

(** The five experiment notebooks, each with its output directory. *)
Inductive Experiment : Type :=
| DeiT | DistilBERT | ResNet56 | LightGBM | RandomForest.

Definition experiment_dir (x : Experiment) : string :=
  match x with
  | DeiT => "deit_rvl_cdip"
  | DistilBERT => "distilbert_imdb"
  | ResNet56 => "resnet56_cifar10"
  | LightGBM => "lightgbm_sorel20m"
  | RandomForest => "random_forest_synthetic"
  end.

(** Running an experiment on the frames its evaluations returned; only the
    random forest notebook has a second one. *)
Definition run_experiment (x : Experiment) (df1 df2 : Table) : Notebook unit :=
  match x with
  | DeiT => deit_rvl_cdip df1
  | DistilBERT => distilbert_imdb df1
  | ResNet56 => resnet56_cifar10 df1
  | LightGBM => lightgbm_sorel20m df1
  | RandomForest => random_forest_synthetic df1 df2
  end.

(** The frame an experiment saves. *)
Definition saved_frame (x : Experiment) (df1 df2 : Table) : Table :=
  match x with
  | RandomForest => df1 ++ df2
  | _ => df1
  end.

(** ** The combining notebook *)

(** The cell "Data": every [results.csv] below [OUTPUT_DIR], read with a
    semicolon as separator, and the frames concatenated. *)
Definition load_all_results : Notebook Table :=
  result_files <- rglob "results.csv" ;;
  all_results <- for_each (fun result_file => read_csv result_file ";") result_files ;;
  lift (pd_concat all_results).

(** The cells "Plots" and "Tables", given the filtered frame.  The two
    summary helpers of [src.utils] are arguments. *)
Definition plots_and_tables
  (create_summary_table_with_absolute_values_and_stddev
   create_summary_table_with_relative_change_and_stddev : SummaryFunction)
  (results_df : Table) : Notebook unit :=
  let output_dir := OUTPUT_DIR // "combined_results" in
  (* Plots *)
  reduction_methods_order <- lift (reduction_methods_order results_df) ;;
  plot_evaluation_results_from_dataframe
    (filter (fun r => (Model r =? "Random Forest")
                      && (Dataset r =? "Synthetic Balanced")
                      && negb (Calibration_Method r =? "TemperatureScaling"))
            results_df)
    reduction_methods_order
    (output_dir // "evaluation_ECE_rf_balanced.eps") ;;
  plot_evaluation_results_from_dataframe
    (filter (fun r => (Model r =? "Random Forest")
                      && (Dataset r =? "Synthetic Imbalanced")
                      && negb (Calibration_Method r =? "TemperatureScaling"))
            results_df)
    reduction_methods_order
    (output_dir // "evaluation_ECE_rf_imbalanced.eps") ;;
  plot_evaluation_results_from_dataframe
    (filter (fun r => (Model r =? "Random Forest")
                      && (Calibration_Method r =? "TemperatureScaling"))
            results_df)
    reduction_methods_order
    (output_dir // "evaluation_ECE_rf_temperature_scaling.eps") ;;
  plot_evaluation_results_from_dataframe
    (filter (fun r => negb (Model r =? "Random Forest") && (Metric r =? "ECE"))
            results_df)
    reduction_methods_order
    (output_dir // "evaluation_ECE_multiple.eps") ;;
  plot_evaluation_results_from_dataframe
    (filter (fun r => negb (Model r =? "Random Forest") && (Metric r =? "cwECE"))
            results_df)
    reduction_methods_order
    (output_dir // "evaluation_cwECE_multiple.eps") ;;
  (* Tables: ECE *)
  ece_summary_df <-
    lift (create_summary_table_with_absolute_values_and_stddev
            (metric_is "ECE" results_df) reduction_methods_order) ;;
  to_csv (SummaryFrame ece_summary_df)
         (output_dir // "ece_results_summary_absolute.csv") "," true ;;
  ece_summary_df_relative_change <-
    lift (create_summary_table_with_relative_change_and_stddev
            (metric_is "ECE" results_df) reduction_methods_order) ;;
  to_csv (SummaryFrame ece_summary_df_relative_change)
         (output_dir // "ece_results_summary_relative.csv") "," true ;;
  (* Tables: cwECE *)
  cwece_summary_df <-
    lift (create_summary_table_with_absolute_values_and_stddev
            (metric_is "cwECE" results_df) reduction_methods_order) ;;
  to_csv (SummaryFrame cwece_summary_df)
         (output_dir // "cwece_results_summary_absolute.csv") "," true ;;
  cwece_summary_df_relative_change <-
    lift (create_summary_table_with_relative_change_and_stddev
            (metric_is "cwECE" results_df) reduction_methods_order) ;;
  to_csv (SummaryFrame cwece_summary_df_relative_change)
         (output_dir // "cwece_results_summary_relative.csv") "," true.

(** The notebook that combines the results: load, filter ("We filter the
    results first"), then plot and tabulate. *)
Definition combine_results
  (create_summary_table_with_absolute_values_and_stddev
   create_summary_table_with_relative_change_and_stddev : SummaryFunction)
  : Notebook unit :=
  results_df <- load_all_results ;;
  let results_df := query_not_diagnostic results_df in
  let results_df := drop_weighted results_df in
  plots_and_tables create_summary_table_with_absolute_values_and_stddev
                   create_summary_table_with_relative_change_and_stddev
                   results_df.

(** *** What the combining notebook writes, as a function of the frame *)

Definition write_all (outputs : list (Path * File)) (fs : list (Path * File))
  : list (Path * File) :=
  fold_left (fun fs pf => write_file (fst pf) (snd pf) fs) outputs fs.

Definition calls_of (outputs : list (Path * File)) : list PlotCall :=
  flat_map (fun pf => match snd pf with
                      | PlotFile df hue_order => [mkPlotCall df hue_order (fst pf)]
                      | CsvFile _ _ _ => []
                      end) outputs.

Definition combined_dir : Path := OUTPUT_DIR // "combined_results".

Definition combined_plots (df : Table) (order : list string) : list (Path * File) :=
  [ (combined_dir // "evaluation_ECE_rf_balanced.eps",
     PlotFile (filter (fun r => (Model r =? "Random Forest")
                                && (Dataset r =? "Synthetic Balanced")
                                && negb (Calibration_Method r =? "TemperatureScaling"))
                      df) order);
    (combined_dir // "evaluation_ECE_rf_imbalanced.eps",
     PlotFile (filter (fun r => (Model r =? "Random Forest")
                                && (Dataset r =? "Synthetic Imbalanced")
                                && negb (Calibration_Method r =? "TemperatureScaling"))
                      df) order);
    (combined_dir // "evaluation_ECE_rf_temperature_scaling.eps",
     PlotFile (filter (fun r => (Model r =? "Random Forest")
                                && (Calibration_Method r =? "TemperatureScaling"))
                      df) order);
    (combined_dir // "evaluation_ECE_multiple.eps",
     PlotFile (filter (fun r => negb (Model r =? "Random Forest") && (Metric r =? "ECE"))
                      df) order);
    (combined_dir // "evaluation_cwECE_multiple.eps",
     PlotFile (filter (fun r => negb (Model r =? "Random Forest") && (Metric r =? "cwECE"))
                      df) order) ].

Definition summary_csv (name : string) (s : SummaryTable) : Path * File :=
  (combined_dir // name, CsvFile "," true (SummaryFrame s)).

(** The outcome of the cells "Plots" and "Tables" and the files written up
    to the point where they stop. *)
Definition combined_outputs (absolute relative : SummaryFunction) (df : Table)
  : result unit * list (Path * File) :=
  match reduction_methods_order df with
  | Err e => (Err e, [])
  | Ok order =>
      let plots := combined_plots df order in
      match absolute (metric_is "ECE" df) order with
      | Err e => (Err e, plots)
      | Ok s1 =>
          let t1 := summary_csv "ece_results_summary_absolute.csv" s1 in
          match relative (metric_is "ECE" df) order with
          | Err e => (Err e, plots ++ [t1])
          | Ok s2 =>
              let t2 := summary_csv "ece_results_summary_relative.csv" s2 in
              match absolute (metric_is "cwECE" df) order with
              | Err e => (Err e, plots ++ [t1; t2])
              | Ok s3 =>
                  let t3 := summary_csv "cwece_results_summary_absolute.csv" s3 in
                  match relative (metric_is "cwECE" df) order with
                  | Err e => (Err e, plots ++ [t1; t2; t3])
                  | Ok s4 =>
                      let t4 := summary_csv "cwece_results_summary_relative.csv" s4 in
                      (Ok tt, plots ++ [t1; t2; t3; t4])
                  end
              end
          end
      end
  end.

(** The files named [results.csv] of a directory listing. *)
Definition results_files (fs : list (Path * File)) : list Path :=
  map fst (filter (fun pf => path_name (fst pf) =? "results.csv") fs).

(** ** The results aggregator *)

Definition Qsum (l : list Q) : Q := fold_right Qplus 0%Q l.

Definition Qcount (l : list Q) : Q := inject_Z (Z.of_nat (length l)).

Definition Qmean (l : list Q) : Q := (Qsum l / Qcount l)%Q.

(** The square of the standard deviation over the values given; a single
    value has deviation zero. *)
Definition Qstd_squared (l : list Q) : Q :=
  let m := Qmean l in Qmean (map (fun x => ((x - m) * (x - m))%Q) l).

(** The rows of a summary table: model, dataset, base method and metric. *)
Definition GroupKey : Type := (string * string * string * string)%type.

Definition key_of (r : Row) : GroupKey :=
  (Model r, Dataset r, Calibration_Method r, Metric r).

Definition key_eqb (k1 k2 : GroupKey) : bool :=
  let '(a1, b1, c1, d1) := k1 in
  let '(a2, b2, c2, d2) := k2 in
  (a1 =? a2) && (b1 =? b2) && (c1 =? c2) && (d1 =? d2).

Definition group_keys (df : Table) : list GroupKey :=
  unique_from key_eqb [] (map key_of df).

(** The values of the folds that are present for a variant of a group. *)
Definition group_scores (df : Table) (k : GroupKey) (variant : string) : list Q :=
  map Score
      (filter (fun r => key_eqb (key_of r) k && (Reduction_Method r =? variant)) df).

(** Modelled from the spec: the summary helpers of [src.utils] are not among
    the sources.  One Summary Record per group and variant, from the folds
    that are present; a group without any fold is signalled. *)
Definition summarize_group (value : Q -> Q) (baseline_mean : option Q)
  (df : Table) (k : GroupKey) (variant : string) : result SummaryRecord :=
  match group_scores df k variant with
  | [] => Err (EmptyGroup variant)
  | scores =>
      let '(model, dataset, method, metric) := k in
      let values := map value scores in
      Ok (mkSummary model dataset method metric variant
                    (Qmean values) (Qstd_squared values) baseline_mean)
  end.

(** Modelled from the spec: contract A of the aggregator,
    [create_summary_table_with_absolute_values_and_stddev], which is not
    among the sources.  Rows by group, columns in the supplied ordering. *)
Definition create_summary_table_with_absolute_values_and_stddev : SummaryFunction :=
  fun df reduction_methods_order =>
    rbind (rmap (fun k => rmap (summarize_group (fun x => x) None df k)
                               reduction_methods_order)
                (group_keys df))
          (fun rows => Ok (concat rows)).

(** [relative = (value - baseline_mean) / baseline_mean * 100] *)
Definition relative_change (baseline_mean value : Q) : Q :=
  ((value - baseline_mean) / baseline_mean * 100)%Q.

(** The absolute value a relative change and the baseline mean stand for. *)
Definition reconstruct_absolute (baseline_mean relative : Q) : Q :=
  (relative / 100 * baseline_mean + baseline_mean)%Q.

(** Modelled from the spec: contract B of the aggregator,
    [create_summary_table_with_relative_change_and_stddev], which is not
    among the sources.  The designated baseline is the variant pinned first
    in the ordering; every value of a group is replaced by its relative
    change against the mean of the baseline of that group and then summarized
    as in contract A (the baseline itself shows 0).  A baseline mean of zero
    is flagged. *)
Definition create_summary_table_with_relative_change_and_stddev : SummaryFunction :=
  fun df reduction_methods_order =>
    match reduction_methods_order with
    | [] => Ok []
    | baseline :: _ =>
        rbind (rmap (fun k =>
                       match group_scores df k baseline with
                       | [] => Err (EmptyGroup baseline)
                       | scores =>
                           let baseline_mean := Qmean scores in
                           if Qeq_bool baseline_mean 0 then Err (ZeroBaseline baseline)
                           else rmap (summarize_group (relative_change baseline_mean)
                                                      (Some baseline_mean) df k)
                                     reduction_methods_order
                       end)
                    (group_keys df))
              (fun rows => Ok (concat rows))
    end.

Definition s_key (s : SummaryRecord) : GroupKey :=
  (s_Model s, s_Dataset s, s_Calibration_Method s, s_Metric s).

(** ** The fold split of the cross-validated evaluator *)

(** Sizes of [cv] folds over [n] samples, as even as they can be: the first
    [n mod cv] folds have one sample more. *)
Definition fold_sizes (cv n : nat) : list nat :=
  map (fun f => n / cv + (if f <? n mod cv then 1 else 0))%nat (seq 0 cv).

(** Cutting a list into consecutive pieces of the given sizes. *)
Fixpoint chunks {A} (sizes : list nat) (l : list A) : list (list A) :=
  match sizes with
  | [] => []
  | k :: rest => firstn k l :: chunks rest (skipn k l)
  end.

(** The fitting set of fold [f]: the union of all other folds. *)
Definition fitting_set (folds : list (list nat)) (f : nat) : list nat :=
  concat (firstn f folds ++ skipn (S f) folds).

Definition held_out (folds : list (list nat)) (f : nat) : list nat :=
  nth f folds [].

Section Evaluator.

(** The process-wide random generator: its state and the drawing of a
    shuffled copy of a list of indices. *)
Variable RngState : Type.
Variable rng_shuffle : RngState -> list nat -> list nat * RngState.

(** Computations that draw from the generator. *)
Definition Rand (A : Type) : Type := RngState -> A * RngState.

(** Modelled from the spec: the fold split of the evaluator, which is not
    among the sources.  The sample indices [0 .. n-1] are shuffled with the
    generator and cut into [cv] consecutive held-out groups. *)
Definition fold_split (cv n : nat) : Rand (list (list nat)) :=
  fun g => let (shuffled, g') := rng_shuffle g (seq 0 n) in
           (chunks (fold_sizes cv n) shuffled, g').

End Evaluator.

(** ** Vocabulary of the statements *)

(** Ascending order of display-name length. *)
Definition shorter_or_equal (a b : string) : Prop := len a <= len b.

(** The names of one length. *)
Definition has_len (n : nat) (s : string) : bool := (len s =? n)%nat.

(** A row of a given variant. *)
Definition row_of_variant (variant : string) : Row :=
  mkRow "Random Forest" "Synthetic Balanced" "BetaCalibration" variant "ECE" 0 (1 # 10).

(** The output directory and the three slices the random forest notebook
    plots. *)
Definition rf_dir : Path := OUTPUT_DIR // "random_forest_synthetic".

Definition rf_balanced_slice (df : Table) : Table :=
  filter (fun r => (Dataset r =? "Synthetic Balanced")
                   && negb (Calibration_Method r =? "TemperatureScaling"))
         (query_not_diagnostic df).

Definition rf_imbalanced_slice (df : Table) : Table :=
  filter (fun r => (Dataset r =? "Synthetic Imbalanced")
                   && negb (Calibration_Method r =? "TemperatureScaling"))
         (query_not_diagnostic df).

Definition rf_temperature_slice (df : Table) : Table :=
  filter (fun r => Calibration_Method r =? "TemperatureScaling")
         (query_not_diagnostic df).

(** The results file of an experiment. *)
Definition results_csv (x : Experiment) : Path :=
  OUTPUT_DIR // experiment_dir x // "results.csv".

(** A row of one of the two diagnostic metrics. *)
Definition is_diagnostic (r : Row) : Prop :=
  Metric r = "condition" \/ Metric r = "weak_condition".

(** [sub] occurs in [s] in some letter case. *)
Definition occurs_in_any_case (sub s : string) : Prop :=
  exists pre mid post, s = (pre ++ mid ++ post)%string /\ str_lower mid = sub.

(** A row of a weighted variant. *)
Definition is_weighted (r : Row) : Prop :=
  occurs_in_any_case "weighted" (Reduction_Method r).

(** The two filters of the combining notebook as one test. *)
Definition kept (r : Row) : bool := not_diagnostic r && not_weighted r.

(** Two outcomes of reading that the filter cannot tell apart. *)
Definition same_after_filter (r1 r2 : result Table) : Prop :=
  match r1, r2 with
  | Ok a, Ok b => filter_results a = filter_results b
  | Err e1, Err e2 => e1 = e2
  | _, _ => False
  end.

(** ** Sample data *)

(** Rows of the DeiT experiment. *)
Definition row (variant metric : string) (fold : nat) (score : Q) : Row :=
  mkRow "DeiT" "RVL-CDIP" "BetaCalibration" variant metric fold score.

Definition condition_row : Row := row "Baseline" "condition" 0 (1 # 1).

Definition weighted_row : Row := row "Class-wise WEIGHTED" "ECE" 0 (9 # 100).

(** Two variants over two folds, a diagnostic row and a row of a weighted
    variant. *)
Definition sample_results : Table :=
  [ row "Baseline" "ECE" 0 (4 # 100);
    condition_row;
    row "Reduced" "ECE" 0 (2 # 100);
    weighted_row;
    row "Baseline" "ECE" 1 (6 # 100);
    row "Reduced" "ECE" 1 (3 # 100) ].

(** An output directory without files. *)
Definition empty_world : World := mkWorld [] [].

(** An experiment run on the sample frame (twice, where it takes two) in an
    empty directory runs to its end, saves the diagnostic row and plots
    frames without it. *)
Definition saves_the_diagnostic_row (x : Experiment) : Prop :=
  let w' := snd (run_experiment x sample_results sample_results empty_world) in
  fst (run_experiment x sample_results sample_results empty_world) = Ok tt
  /\ exists saved new_calls,
      lookup_file (OUTPUT_DIR // experiment_dir x // "results.csv") (files w')
      = Some (CsvFile ";" false (ResultsFrame saved))
      /\ In condition_row saved
      /\ plot_calls w' = plot_calls empty_world ++ new_calls
      /\ new_calls <> []
      /\ forall c, In c new_calls -> ~ In condition_row (plot_df c).

(** The same run ends with the sample frame in [results.csv], written with
    a semicolon. *)
Definition writes_results_with_semicolon (x : Experiment) : Prop :=
  fst (run_experiment x sample_results sample_results empty_world) = Ok tt
  /\ lookup_file (OUTPUT_DIR // experiment_dir x // "results.csv")
                 (files (snd (run_experiment x sample_results sample_results
                                             empty_world)))
     = Some (CsvFile ";" false
               (ResultsFrame (saved_frame x sample_results sample_results))).

(** The output directory after the DeiT notebook has run. *)
Definition world_after_deit : World :=
  snd (run_experiment DeiT sample_results [] empty_world).

(** The ECE rows that reach the summaries, their group and their
    relative-change summary. *)
Definition sample_ece : Table := metric_is "ECE" (filter_results sample_results).


Definition sample_relative_summary : SummaryTable :=
  Eval vm_compute in
    match create_summary_table_with_relative_change_and_stddev
            sample_ece ["Baseline"; "Reduced"] with
    | Ok tbl => tbl
    | Err _ => []
    end.

Definition sample_relative_record : SummaryRecord :=
  Eval vm_compute in nth 1 sample_relative_summary
                         (mkSummary "" "" "" "" "" 0 0 None).


(** Rows of the random forest experiment. *)
Definition rf_row (dataset method variant metric : string) : Row :=
  mkRow "Random Forest" dataset method variant metric 0 (5 # 100).

Definition rf_balanced_sample : Table :=
  [ rf_row "Synthetic Balanced" "BetaCalibration" "Baseline" "ECE";
    rf_row "Synthetic Balanced" "TemperatureScaling" "Reduced" "ECE" ].

Definition rf_imbalanced_sample : Table :=
  [ rf_row "Synthetic Imbalanced" "BetaCalibration" "Baseline" "ECE";
    rf_row "Synthetic Imbalanced" "BetaCalibration" "Baseline" "weak_condition" ].

(** A generator that turns the list of indices round and counts its draws. *)
Definition reversing_shuffle (g : nat) (l : list nat) : list nat * nat :=
  (rev l, S g).

(** A generator whose shuffle depends on its state. *)
Definition rotating_shuffle (g : nat) (l : list nat) : list nat * nat :=
  (skipn g l ++ firstn g l, S g).

(** ** More vocabulary: directory listings *)

(** The paths of a directory listing. *)
Definition paths (fs : list (Path * File)) : list Path := map fst fs.

(** The name of the plot of an experiment with a single plot. *)
Definition experiment_plot (x : Experiment) : string :=
  match x with
  | DeiT => "evaluation_ECE_deit_rvl_cdip.eps"
  | DistilBERT => "evaluation_ECE_distilbert_imdb.eps"
  | ResNet56 => "evaluation_ECE_resnet56_cifar10.eps"
  | LightGBM => "evaluation_ECE_lightgbm_sorel20m.eps"
  | RandomForest => "evaluation_ECE_rf_balanced.eps"
  end.

(** The files an experiment writes, in the order of its writes. *)
Definition experiment_outputs (x : Experiment) (df1 df2 : Table) (order : list string)
  : list (Path * File) :=
  match x with
  | RandomForest =>
      [ (rf_dir // "results.csv", CsvFile ";" false (ResultsFrame (df1 ++ df2)));
        (rf_dir // "evaluation_ECE_rf_balanced.eps",
         PlotFile (rf_balanced_slice (df1 ++ df2)) order);
        (rf_dir // "evaluation_ECE_rf_balanced.eps",
         PlotFile (rf_imbalanced_slice (df1 ++ df2)) order);
        (rf_dir // "evaluation_ECE_rf_temperature_scaling.eps",
         PlotFile (rf_temperature_slice (df1 ++ df2)) order) ]
  | _ =>
      [ (OUTPUT_DIR // experiment_dir x // "results.csv",
         CsvFile ";" false (ResultsFrame df1));
        (OUTPUT_DIR // experiment_dir x // experiment_plot x,
         PlotFile (query_not_diagnostic df1) order) ]
  end.

(** The four summary files of the combining notebook. *)
Definition summary_paths : list Path :=
  [ combined_dir // "ece_results_summary_absolute.csv";
    combined_dir // "ece_results_summary_relative.csv";
    combined_dir // "cwece_results_summary_absolute.csv";
    combined_dir // "cwece_results_summary_relative.csv" ].

(** The five plot files of the combining notebook. *)
Definition combined_plot_paths : list Path :=
  [ combined_dir // "evaluation_ECE_rf_balanced.eps";
    combined_dir // "evaluation_ECE_rf_imbalanced.eps";
    combined_dir // "evaluation_ECE_rf_temperature_scaling.eps";
    combined_dir // "evaluation_ECE_multiple.eps";
    combined_dir // "evaluation_cwECE_multiple.eps" ].

(** The plots the combining notebook makes of a filtered frame: none when
    the ordering cell raises. *)
Definition plots_of_frame (df : Table) : list (Path * File) :=
  match reduction_methods_order df with
  | Ok order => combined_plots df order
  | Err _ => []
  end.

(** ** The LightGBM notebook: class probabilities of a booster *)

(** [np.zeros(y.shape, dtype=float)] *)
Definition np_zeros_like (y : list (list Q)) : list (list Q) :=
  map (map (fun _ => 0%Q)) y.

(** [np.append(a, b, axis=1)] of two arrays with as many rows: the rows of
    [b] after the rows of [a], row by row. *)
Definition np_append_axis1 (a b : list (list Q)) : list (list Q) :=
  map (fun ab => fst ab ++ snd ab) (combine a b).

(** [y[:, 0] = 1.0 - y[:, 1]] on one row. *)
Definition set_first_to_complement (row : list Q) : list Q :=
  match row with
  | [] => []
  | _ :: rest => (1 - nth 1 row 0)%Q :: rest
  end.

(** The method the notebook attaches to the booster:
    [y = model.predict(X)], [y = y[:, np.newaxis]],
    [y = np.append(np.zeros(y.shape, dtype=float), y, axis=1)],
    [y[:, 0] = 1.0 - y[:, 1]], [return y]; [model.predict] returns one
    probability per sample. *)
Definition predict_proba {X : Type} (model_predict : X -> list Q) (x : X)
  : list (list Q) :=
  let y := model_predict x in
  let y := map (fun p => [p]) y in
  let y := np_append_axis1 (np_zeros_like y) y in
  map set_first_to_complement y.

(** [np.argmax] of one row: the position of the first largest entry. *)
Fixpoint argmax_from (best_at : nat) (best : Q) (at_ : nat) (row : list Q) : nat :=
  match row with
  | [] => best_at
  | c :: rest =>
      if Qle_bool c best then argmax_from best_at best (S at_) rest
      else argmax_from at_ c (S at_) rest
  end.

Definition argmax (row : list Q) : nat :=
  match row with
  | [] => 0
  | c :: rest => argmax_from 0 c 1 rest
  end.

(** [y_pred = np.argmax(uncalibrated_confidences, axis=1)] *)
Definition y_pred {X : Type} (model_predict : X -> list Q) (x : X) : list nat :=
  map argmax (predict_proba model_predict x).

(** ** The first cells of every notebook: imports and the module path *)

Inductive NotebookId : Type :=
| Combining
| Experiment_of (x : Experiment).

(** The names the import cell of a notebook binds: [import a.b] binds [a],
    [import a as b] and [from a import b] bind [b]. *)
Definition imported_names (n : NotebookId) : list string :=
  match n with
  | Combining =>
      ["logging"; "os"; "sys"; "Path"; "List"; "pd"]
  | Experiment_of DeiT =>
      ["logging"; "os"; "sys"; "Path"; "List"; "np"; "torch"; "EvalStats";
       "accuracy_score"; "DataLoader"; "tqdm"; "AutoFeatureExtractor";
       "AutoModelForImageClassification"]
  | Experiment_of DistilBERT =>
      ["logging"; "os"; "sys"; "Path"; "List"; "np"; "torch"; "F"; "torchtext";
       "EvalStats"; "accuracy_score"; "DataLoader"; "tqdm";
       "DistilBertForSequenceClassification"; "DistilBertTokenizer"]
  | Experiment_of ResNet56 =>
      ["logging"; "os"; "sys"; "Path"; "List"; "kyle"; "np"; "torch"; "F";
       "get_cifar10_dataloader"; "EvalStats"; "resnet56"; "accuracy_score"; "tqdm"]
  | Experiment_of LightGBM =>
      ["logging"; "types"; "List"; "lgb"; "plt"; "np"; "EvalStats"; "accuracy_score"]
  | Experiment_of RandomForest =>
      ["logging"; "os"; "sys"; "Path"; "List"; "pd"; "EvalStats"]
  end.

(** What the interpreter raises for a name that is not bound. *)
Definition NameError (name : string) : PyError :=
  Raised ("NameError: name '" ++ name ++ "' is not defined").

(** Evaluating a global name. *)
Definition load_name (name : string) (namespace : list string) : result unit :=
  if existsb (String.eqb name) namespace then Ok tt else Err (NameError name).

(** The state of the kernel that the first cells touch: the global names
    that are bound and the module search path. *)
Record Kernel : Type := mkKernel {
  namespace : list string;
  sys_path : list Path
}.

(** The cell
    [current_working_directory = Path(".").resolve()]
    [if current_working_directory.name == "notebooks":]
    [    sys.path.insert(0, os.fspath(current_working_directory.parent))]
    run in the directory [cwd]. *)
Definition module_path_cell (cwd : Path) (k : Kernel) : result Kernel :=
  rbind (load_name "Path" (namespace k)) (fun _ =>
  let k := mkKernel ("current_working_directory" :: namespace k) (sys_path k) in
  if path_name cwd =? "notebooks" then
    rbind (load_name "sys" (namespace k)) (fun _ =>
    rbind (load_name "os" (namespace k)) (fun _ =>
    Ok (mkKernel (namespace k) (removelast cwd :: sys_path k))))
  else Ok k).

(** The import cell and the module-path cell of a notebook. *)
Definition first_cells (n : NotebookId) (cwd : Path) (k : Kernel) : result Kernel :=
  module_path_cell cwd (mkKernel (imported_names n ++ namespace k) (sys_path k)).

(** ** The DeiT notebook: class names and label files *)

(** A Python dict as the list of its items in insertion order; setting a key
    that is there replaces its value in place. *)
Fixpoint dict_set {K V : Type} (eqb : K -> K -> bool) (k : K) (v : V)
  (d : list (K * V)) : list (K * V) :=
  match d with
  | [] => [(k, v)]
  | (k', v') :: t =>
      if eqb k k' then (k', v) :: t else (k', v') :: dict_set eqb k v t
  end.

Fixpoint dict_get {K V : Type} (eqb : K -> K -> bool) (k : K) (d : list (K * V))
  : option V :=
  match d with
  | [] => None
  | (k', v') :: t => if eqb k k' then Some v' else dict_get eqb k t
  end.

(** A dict display or comprehension: the items are set one after the other. *)
Definition dict_of {K V : Type} (eqb : K -> K -> bool) (items : list (K * V))
  : list (K * V) :=
  fold_left (fun d kv => dict_set eqb (fst kv) (snd kv) d) items [].

(** An item with key and value exchanged. *)
Definition swap_item {K V : Type} (kv : K * V) : V * K := (snd kv, fst kv).

(** [{v: k for k, v in d.items()}] *)
Definition dict_inverted {K V : Type} (eqb : V -> V -> bool) (d : list (K * V))
  : list (V * K) :=
  dict_of eqb (map swap_item d).

(** The items of the dict display [label2idx = {"letter": 0, ...}]. *)
Definition label2idx_items : list (string * nat) :=
  [ ("letter", 0); ("form", 1); ("email", 2); ("handwritten", 3);
    ("advertisement", 4); ("scientific_report", 5);
    ("scientific_publication", 6); ("specification", 7); ("file_folder", 8);
    ("news_article", 9); ("budget", 10); ("invoice", 11);
    ("presentation", 12); ("questionnaire", 13); ("resume", 14); ("memo", 15) ].

Definition label2idx : list (string * nat) := dict_of String.eqb label2idx_items.

Definition idx2label : list (nat * string) := dict_inverted Nat.eqb label2idx.

Definition n_classes : nat := length label2idx.

Section LabelFiles.

(** What the loop over the label files calls: [line.strip().split()],
    [int(label)], [images_dir / relative_image_path], [image_path.is_file()]
    and whether [open_image(image_path)] returns an image. *)
Variable strip_split : string -> list string.
Variable int : string -> result Z.
Variable ImagePath : Type.
Variable images_dir_div : string -> ImagePath.
Variable is_file : ImagePath -> bool.
Variable open_image : ImagePath -> bool.

(** The body of [for line in tqdm(lines):] over the lines of one file, from
    the lists [images] and [labels] as they are. *)
Fixpoint read_label_lines (lines : list string)
  (images : list ImagePath) (labels : list Z)
  : result (list ImagePath * list Z) :=
  match lines with
  | [] => Ok (images, labels)
  | line :: rest =>
      match strip_split line with
      | [relative_image_path; label] =>
          let image_path := images_dir_div relative_image_path in
          if negb (is_file image_path) then Err (Raised "AssertionError")
          else if negb (open_image image_path) then
                 read_label_lines rest images labels
               else
                 rbind (int label) (fun n =>
                 read_label_lines rest (images ++ [image_path]) (labels ++ [n]))
      | _ => Err ValueError
      end
  end.

(** [for label_file in [test_labels_file, validation_labels_file]:] over the
    lines [f.readlines()] of each file. *)
Fixpoint read_label_files (files_lines : list (list string))
  (images : list ImagePath) (labels : list Z)
  : result (list ImagePath * list Z) :=
  match files_lines with
  | [] => Ok (images, labels)
  | lines :: rest =>
      rbind (read_label_lines lines images labels) (fun il =>
      read_label_files rest (fst il) (snd il))
  end.

(** A pair of an image and a label that one line of a label file gives. *)
Definition line_gives (line : string) (image : ImagePath) (label : Z) : Prop :=
  exists relative_image_path label_text,
    strip_split line = [relative_image_path; label_text]
    /\ image = images_dir_div relative_image_path
    /\ is_file image = true
    /\ open_image image = true
    /\ int label_text = Ok label.

End LabelFiles.

(** ** More sample data *)

(** A results file whose rows are all dropped by the filter. *)
Definition world_of_dropped_rows : World :=
  mkWorld [ (OUTPUT_DIR // "deit_rvl_cdip" // "results.csv",
             CsvFile ";" false (ResultsFrame [condition_row; weighted_row])) ]
          [].

(** Summary helpers that always raise. *)
Definition failing_summary : SummaryFunction := fun _ _ => Err ValueError.

(** A booster that predicts 3/4 and 1/4 for two samples. *)
Definition sample_predict (x : unit) : list Q := [3 # 4; 1 # 4].

(** Label lines of one field, all with label 3; one image does not open. *)
Definition sample_split (line : string) : list string := [line; "3"].

Definition sample_int (text : string) : result Z := Ok 3%Z.

Definition sample_opens (image : string) : bool := negb (image =? "broken.png").

Definition sample_label_files : list (list string) :=
  [["a.png"; "broken.png"]; ["b.png"]].

(** * Properties *)

(** ** The display ordering *)

Lemma insert_by_len_perm x l : Permutation (insert_by_len x l) (x :: l).
Proof.
  induction l as [|y t IH]; simpl.
  - reflexivity.
  - destruct (len x <=? len y)%nat.
    + reflexivity.
    + rewrite IH. apply perm_swap.
Qed.

Lemma sorted_by_len_perm l : Permutation (sorted_by_len l) l.
Proof.
  induction l as [|x t IH]; simpl.
  - reflexivity.
  - rewrite insert_by_len_perm. now constructor.
Qed.

Lemma insert_by_len_sorted x l :
  StronglySorted shorter_or_equal l ->
  StronglySorted shorter_or_equal (insert_by_len x l).
Proof.
  induction 1 as [|y t Ht IH Hy]; simpl.
  - repeat constructor.
  - destruct (len x <=? len y)%nat eqn:E.
    + apply Nat.leb_le in E.
      constructor; [now constructor|].
      constructor; [exact E|].
      eapply Forall_impl; [|exact Hy].
      unfold shorter_or_equal. intros; lia.
    + apply Nat.leb_gt in E.
      constructor; [exact IH|].
      eapply Permutation_Forall.
      * symmetry. apply insert_by_len_perm.
      * constructor; [unfold shorter_or_equal; lia | exact Hy].
Qed.

Lemma sorted_by_len_sorted l : StronglySorted shorter_or_equal (sorted_by_len l).
Proof.
  induction l; simpl; [constructor | now apply insert_by_len_sorted].
Qed.

(** Names of one length keep their order: the sort is stable. *)
Lemma insert_by_len_stable n x l :
  filter (has_len n) (insert_by_len x l) = filter (has_len n) (x :: l).
Proof.
  induction l as [|y t IH]; [reflexivity|].
  simpl insert_by_len.
  destruct (len x <=? len y)%nat eqn:E; [reflexivity|].
  apply Nat.leb_gt in E.
  change (filter (has_len n) (y :: insert_by_len x t))
    with (if has_len n y then y :: filter (has_len n) (insert_by_len x t)
          else filter (has_len n) (insert_by_len x t)).
  rewrite IH. simpl. unfold has_len.
  destruct (Nat.eqb_spec (len y) n), (Nat.eqb_spec (len x) n);
    try reflexivity; lia.
Qed.

Lemma sorted_by_len_stable n l :
  filter (has_len n) (sorted_by_len l) = filter (has_len n) l.
Proof.
  induction l as [|x t IH]; [reflexivity|].
  simpl sorted_by_len. rewrite insert_by_len_stable. simpl. now rewrite IH.
Qed.

Lemma filter_has_len_head a t : filter (has_len (len a)) (a :: t) = a :: filter (has_len (len a)) t.
Proof. simpl. unfold has_len. now rewrite Nat.eqb_refl. Qed.

(** A stable sort has one possible result: two lists in ascending order of
    length that agree on the names of every length are the same list.  So
    the insertion sort above returns what any stable [sorted] returns. *)
Lemma stable_sort_unique l1 :
  forall l2,
    StronglySorted shorter_or_equal l1 ->
    StronglySorted shorter_or_equal l2 ->
    (forall n, filter (has_len n) l1 = filter (has_len n) l2) ->
    l1 = l2.
Proof.
  induction l1 as [|a t1 IH]; intros l2 S1 S2 Hf.
  - destruct l2 as [|b t2]; [reflexivity|].
    specialize (Hf (len b)). rewrite filter_has_len_head in Hf. discriminate.
  - destruct l2 as [|b t2].
    + specialize (Hf (len a)). rewrite filter_has_len_head in Hf. discriminate.
    + inversion S1 as [|? ? St1 Ha]; inversion S2 as [|? ? St2 Hb]; subst.
      assert (Hab : len a = len b).
      { assert (In a (b :: t2)) as Ia.
        { pose proof (Hf (len a)) as H. rewrite filter_has_len_head in H.
          assert (In a (filter (has_len (len a)) (b :: t2))) as I
              by (rewrite <- H; now left).
          apply filter_In in I. tauto. }
        assert (In b (a :: t1)) as Ib.
        { pose proof (Hf (len b)) as H. rewrite filter_has_len_head in H.
          assert (In b (filter (has_len (len b)) (a :: t1))) as I
              by (rewrite H; now left).
          apply filter_In in I. tauto. }
        rewrite Forall_forall in Ha, Hb. unfold shorter_or_equal in *.
        destruct Ia as [Ia|Ia]; [now subst|].
        destruct Ib as [Ib|Ib]; [now subst|].
        apply Hb in Ia. apply Ha in Ib. lia. }
      pose proof (Hf (len a)) as H0.
      rewrite filter_has_len_head in H0. rewrite Hab in H0 at 2.
      rewrite filter_has_len_head in H0. injection H0 as Heq Htl. subst b.
      f_equal. apply IH; auto.
      intros n. specialize (Hf n). simpl in Hf.
      destruct (has_len n a); [now injection Hf | exact Hf].
Qed.

(** C2. The ordering keeps the first name in first position and puts the
    remaining names in ascending order of display-name length, names of the
    same length keeping their original relative order; and the variants
    "Baseline", "ReducedX", "ClassWiseReducedLongName", "CW" come out as
    "Baseline", "CW", "ReducedX", "ClassWiseReducedLongName". *)
Theorem C2_pinned_first_then_stable_length_order :
  (forall (first : string) (rest : list string),
      exists sorted_rest,
        pin_first_sort_rest (first :: rest) = Ok (first :: sorted_rest)
        /\ Permutation sorted_rest rest
        /\ StronglySorted (fun a b => len a <= len b) sorted_rest
        /\ (forall n, filter (fun s => (len s =? n)%nat) sorted_rest
                      = filter (fun s => (len s =? n)%nat) rest))
  /\ (forall df, reduction_methods_order df
                 = pin_first_sort_rest (unique (map Reduction_Method df)))
  /\ pin_first_sort_rest ["Baseline"; "ReducedX"; "ClassWiseReducedLongName"; "CW"]
     = Ok ["Baseline"; "CW"; "ReducedX"; "ClassWiseReducedLongName"].
Proof.
  split; [|split; reflexivity].
  intros first rest. exists (sorted_by_len rest).
  split; [reflexivity|].
  split; [apply sorted_by_len_perm|].
  split; [apply sorted_by_len_sorted|].
  intros n; apply (sorted_by_len_stable n).
Qed.

(** ** The pinned variant *)

Lemma unique_cons x l :
  unique (x :: l) = x :: unique_from String.eqb [x] l.
Proof. reflexivity. Qed.

(** C9. The pinned variant is the variant of the first row of the table,
    whatever it is named; two tables with the same rows in another order can
    pin different variants. *)
Theorem C9_pinned_variant_is_first_row :
  (forall (r : Row) (df : Table),
      exists rest,
        reduction_methods_order (r :: df) = Ok (Reduction_Method r :: rest))
  /\ (exists df1 df2 rest1 rest2,
         Permutation df1 df2
         /\ reduction_methods_order df1 = Ok ("Baseline" :: rest1)
         /\ reduction_methods_order df2 = Ok ("Reduced" :: rest2)).
Proof.
  split.
  - intros r df. unfold reduction_methods_order. simpl map.
    rewrite unique_cons. eexists. reflexivity.
  - exists [row_of_variant "Baseline"; row_of_variant "Reduced"],
           [row_of_variant "Reduced"; row_of_variant "Baseline"],
           ["Reduced"], ["Baseline"].
    split; [apply perm_swap|]. split; reflexivity.
Qed.

(** ** Files *)

Lemma path_eqb_eq p : forall q, path_eqb p q = true <-> p = q.
Proof.
  induction p as [|a p IH]; intros [|b q]; simpl; try (split; congruence).
  rewrite andb_true_iff, IH, String.eqb_eq. split.
  - intros [-> ->]. reflexivity.
  - intros H. injection H as -> ->. auto.
Qed.

Lemma path_eqb_refl p : path_eqb p p = true.
Proof. now apply path_eqb_eq. Qed.

Lemma path_eqb_neq p q : p <> q -> path_eqb p q = false.
Proof.
  intros H. destruct (path_eqb p q) eqn:E; [|reflexivity].
  apply path_eqb_eq in E. contradiction.
Qed.

Lemma lookup_write q p f fs :
  lookup_file q (write_file p f fs)
  = if path_eqb q p then Some f else lookup_file q fs.
Proof.
  induction fs as [|[q0 g] t IH]; simpl.
  - reflexivity.
  - destruct (path_eqb p q0) eqn:E; simpl.
    + apply path_eqb_eq in E. subst q0. now destruct (path_eqb q p).
    + rewrite IH. destruct (path_eqb q q0) eqn:E0; [|reflexivity].
      apply path_eqb_eq in E0. subst q0.
      destruct (path_eqb q p) eqn:E1; [|reflexivity].
      apply path_eqb_eq in E1. subst q. rewrite path_eqb_refl in E. discriminate.
Qed.

Lemma not_diagnostic_spec r :
  not_diagnostic r = true <-> Metric r <> "condition" /\ Metric r <> "weak_condition".
Proof.
  unfold not_diagnostic. rewrite andb_true_iff, !negb_true_iff.
  destruct (String.eqb_spec (Metric r) "condition"),
           (String.eqb_spec (Metric r) "weak_condition"); intuition congruence.
Qed.

Lemma in_query_not_diagnostic r df :
  In r (query_not_diagnostic df) ->
  Metric r <> "condition" /\ Metric r <> "weak_condition".
Proof.
  intros H. apply filter_In in H. now apply not_diagnostic_spec.
Qed.

(** ** Runs of the experiment notebooks *)

Lemma save_and_plot_run dir plot_name df w :
  save_and_plot dir plot_name df w
  = match reduction_methods_order df with
    | Err e => (Err e, w)
    | Ok order =>
        (Ok tt,
         mkWorld
           (write_file (OUTPUT_DIR // dir // plot_name)
              (PlotFile (query_not_diagnostic df) order)
              (write_file (OUTPUT_DIR // dir // "results.csv")
                 (CsvFile ";" false (ResultsFrame df)) (files w)))
           (plot_calls w
              ++ [mkPlotCall (query_not_diagnostic df) order
                             (OUTPUT_DIR // dir // plot_name)]))
    end.
Proof.
  unfold save_and_plot, bind, lift.
  destruct (reduction_methods_order df); reflexivity.
Qed.

Lemma random_forest_run df1 df2 w :
  random_forest_synthetic df1 df2 w
  = match reduction_methods_order df1 with
    | Err e => (Err e, w)
    | Ok order =>
        let df := df1 ++ df2 in
        (Ok tt,
         mkWorld
           (write_file (rf_dir // "evaluation_ECE_rf_temperature_scaling.eps")
              (PlotFile (rf_temperature_slice df) order)
              (write_file (rf_dir // "evaluation_ECE_rf_balanced.eps")
                 (PlotFile (rf_imbalanced_slice df) order)
                 (write_file (rf_dir // "evaluation_ECE_rf_balanced.eps")
                    (PlotFile (rf_balanced_slice df) order)
                    (write_file (rf_dir // "results.csv")
                       (CsvFile ";" false (ResultsFrame df)) (files w)))))
           (plot_calls w
              ++ [mkPlotCall (rf_balanced_slice df) order
                             (rf_dir // "evaluation_ECE_rf_balanced.eps");
                  mkPlotCall (rf_imbalanced_slice df) order
                             (rf_dir // "evaluation_ECE_rf_balanced.eps");
                  mkPlotCall (rf_temperature_slice df) order
                             (rf_dir // "evaluation_ECE_rf_temperature_scaling.eps")]))
    end.
Proof.
  unfold random_forest_synthetic, bind, lift.
  destruct (reduction_methods_order df1); [|reflexivity].
  cbn [pd_concat concat]. rewrite app_nil_r.
  unfold plot_evaluation_results_from_dataframe, to_csv.
  cbn [files plot_calls].
  unfold rf_balanced_slice, rf_imbalanced_slice, rf_temperature_slice, rf_dir.
  cbv zeta. rewrite <- !app_assoc. reflexivity.
Qed.

Lemma reduction_methods_order_cons r df :
  exists order, reduction_methods_order (r :: df) = Ok order.
Proof.
  unfold reduction_methods_order. cbn [map]. rewrite unique_cons. eexists. reflexivity.
Qed.

(** With at least one row in the (first) frame every experiment notebook
    runs from the ordering cell to its end. *)
Lemma experiment_completes x df1 df2 w :
  df1 <> [] -> fst (run_experiment x df1 df2 w) = Ok tt.
Proof.
  destruct df1 as [|r t]; [congruence|]. intros _.
  destruct (reduction_methods_order_cons r t) as [order Ho].
  destruct x; cbn [run_experiment];
    unfold deit_rvl_cdip, distilbert_imdb, resnet56_cifar10, lightgbm_sorel20m;
    rewrite ?save_and_plot_run, ?random_forest_run, Ho; reflexivity.
Qed.

(** What a completed run of an experiment leaves behind: the whole frame in
    [results.csv], written with a semicolon and without the index, and
    plotting calls on frames without diagnostic rows. *)
Lemma experiment_outcome x df1 df2 w :
  fst (run_experiment x df1 df2 w) = Ok tt ->
  let w' := snd (run_experiment x df1 df2 w) in
  lookup_file (results_csv x) (files w')
  = Some (CsvFile ";" false (ResultsFrame (saved_frame x df1 df2)))
  /\ exists new_calls,
      plot_calls w' = plot_calls w ++ new_calls
      /\ new_calls <> []
      /\ forall c r, In c new_calls -> In r (plot_df c) ->
                     In r (saved_frame x df1 df2) /\ ~ is_diagnostic r.
Proof.
  assert (Hq : forall P df r, In r (filter P (query_not_diagnostic df)) ->
                              In r df /\ ~ is_diagnostic r).
  { intros P df r H. apply filter_In in H. destruct H as [H _].
    pose proof (in_query_not_diagnostic _ _ H) as Hd.
    apply filter_In in H. unfold is_diagnostic. tauto. }
  assert (Hq0 : forall df r, In r (query_not_diagnostic df) ->
                             In r df /\ ~ is_diagnostic r).
  { intros df r H. pose proof (in_query_not_diagnostic _ _ H) as Hd.
    apply filter_In in H. unfold is_diagnostic. tauto. }
  destruct x; cbn [run_experiment saved_frame];
    unfold deit_rvl_cdip, distilbert_imdb, resnet56_cifar10, lightgbm_sorel20m;
    rewrite ?save_and_plot_run, ?random_forest_run;
    destruct (reduction_methods_order df1) as [order|e]; cbn [fst snd];
    try discriminate; intros _; cbv zeta; cbn [files plot_calls];
    (split;
     [ rewrite !lookup_write; reflexivity
     | eexists; split; [reflexivity|]; split; [discriminate|];
       intros c r Hc Hr; simpl in Hc;
       repeat (destruct Hc as [<-|Hc]; [cbn [plot_df] in Hr; eauto|]);
       contradiction ]).
Qed.

(** C7. Every experiment notebook whose evaluation returned at least one
    result runs to its end, has then saved the whole results frame,
    diagnostic rows included, in its [results.csv], and has passed to its
    plotting calls only frames from which these rows are gone. *)
Theorem C7_saved_before_diagnostic_filter :
  forall (x : Experiment) (df1 df2 : Table) (w : World) (r : Row),
    df1 <> [] ->
    In r (saved_frame x df1 df2) ->
    Metric r = "condition" \/ Metric r = "weak_condition" ->
    let w' := snd (run_experiment x df1 df2 w) in
    fst (run_experiment x df1 df2 w) = Ok tt
    /\ exists saved new_calls,
        lookup_file (OUTPUT_DIR // experiment_dir x // "results.csv") (files w')
        = Some (CsvFile ";" false (ResultsFrame saved))
        /\ In r saved
        /\ plot_calls w' = plot_calls w ++ new_calls
        /\ new_calls <> []
        /\ forall c, In c new_calls ->
                     ~ In r (plot_df c)
                     /\ forall r', In r' (plot_df c) ->
                                   Metric r' <> "condition"
                                   /\ Metric r' <> "weak_condition".
Proof.
  intros x df1 df2 w r Hne Hin Hdiag w'.
  pose proof (experiment_completes x df1 df2 w Hne) as Hrun.
  split; [exact Hrun|].
  destruct (experiment_outcome x df1 df2 w Hrun) as (Hsaved & calls & Hcalls & Hnil & Hrows).
  exists (saved_frame x df1 df2), calls.
  repeat split; auto.
  - intros Hr. apply (Hrows c r H Hr). exact Hdiag.
  - intros E. apply (Hrows c r' H H0). now left.
  - intros E. apply (Hrows c r' H H0). now right.
Qed.

(** C10. In the random forest notebook the chart of the balanced dataset and
    the chart of the imbalanced dataset go to the same file
    [evaluation_ECE_rf_balanced.eps]; after the run that file holds the second
    chart, the run has touched no file but [results.csv] and its two plot
    files, and a file [evaluation_ECE_rf_imbalanced.eps] is as absent as it
    was before. *)
Theorem C10_rf_imbalanced_plot_overwrites_balanced :
  forall (df1 df2 : Table) (w : World),
    fst (random_forest_synthetic df1 df2 w) = Ok tt ->
    let w' := snd (random_forest_synthetic df1 df2 w) in
    let output_dir := OUTPUT_DIR // "random_forest_synthetic" in
    let balanced :=
      filter (fun r => (Dataset r =? "Synthetic Balanced")
                       && negb (Calibration_Method r =? "TemperatureScaling"))
             (query_not_diagnostic (df1 ++ df2)) in
    let imbalanced :=
      filter (fun r => (Dataset r =? "Synthetic Imbalanced")
                       && negb (Calibration_Method r =? "TemperatureScaling"))
             (query_not_diagnostic (df1 ++ df2)) in
    exists order temperature,
      plot_calls w'
      = plot_calls w
        ++ [mkPlotCall balanced order (output_dir // "evaluation_ECE_rf_balanced.eps");
            mkPlotCall imbalanced order (output_dir // "evaluation_ECE_rf_balanced.eps");
            mkPlotCall temperature order
                       (output_dir // "evaluation_ECE_rf_temperature_scaling.eps")]
      /\ lookup_file (output_dir // "evaluation_ECE_rf_balanced.eps") (files w')
         = Some (PlotFile imbalanced order)
      /\ (forall q,
             q <> output_dir // "results.csv" ->
             q <> output_dir // "evaluation_ECE_rf_balanced.eps" ->
             q <> output_dir // "evaluation_ECE_rf_temperature_scaling.eps" ->
             lookup_file q (files w') = lookup_file q (files w))
      /\ lookup_file (output_dir // "evaluation_ECE_rf_imbalanced.eps") (files w')
         = lookup_file (output_dir // "evaluation_ECE_rf_imbalanced.eps") (files w).
Proof.
  intros df1 df2 w. rewrite random_forest_run.
  destruct (reduction_methods_order df1) as [order|e]; cbn [fst snd];
    [intros _ | discriminate].
  cbv zeta. cbn [files plot_calls].
  exists order, (rf_temperature_slice (df1 ++ df2)).
  split; [reflexivity|].
  split; [rewrite !lookup_write; reflexivity|].
  split; [|rewrite !lookup_write; reflexivity].
  intros q H1 H2 H3. rewrite !lookup_write.
  unfold rf_dir. now rewrite (path_eqb_neq _ _ H1), (path_eqb_neq _ _ H2), (path_eqb_neq _ _ H3).
Qed.

(** ** Runs of the combining notebook *)

Lemma for_each_read_csv sep paths w :
  for_each (fun result_file => read_csv result_file sep) paths w
  = (rmap (fun result_file => parse_csv (lookup_file result_file (files w)) sep) paths, w).
Proof.
  induction paths as [|p t IH]; [reflexivity|].
  cbn [for_each rmap]. unfold bind at 1. unfold read_csv at 1.
  destruct (parse_csv (lookup_file p (files w)) sep) as [df|e]; [|reflexivity].
  unfold bind. rewrite IH. cbn [rbind].
  destruct (rmap _ t); reflexivity.
Qed.

Lemma load_all_results_run w :
  load_all_results w
  = (rbind (rmap (fun result_file => parse_csv (lookup_file result_file (files w)) ";")
                 (results_files (files w)))
           pd_concat, w).
Proof.
  unfold load_all_results, bind, rglob. rewrite for_each_read_csv.
  fold (results_files (files w)).
  destruct (rmap _ (results_files (files w))); reflexivity.
Qed.

Lemma plots_and_tables_run absolute relative df w :
  plots_and_tables absolute relative df w
  = (fst (combined_outputs absolute relative df),
     mkWorld (write_all (snd (combined_outputs absolute relative df)) (files w))
             (plot_calls w ++ calls_of (snd (combined_outputs absolute relative df)))).
Proof.
  unfold plots_and_tables, combined_outputs, bind, lift.
  destruct w as [fs calls].
  destruct (reduction_methods_order df) as [order|e];
    [|cbn; now rewrite app_nil_r].
  unfold plot_evaluation_results_from_dataframe, to_csv. cbn [files plot_calls].
  rewrite <- !app_assoc.
  destruct (absolute (metric_is "ECE" df) order) as [s1|e]; [|reflexivity].
  destruct (relative (metric_is "ECE" df) order) as [s2|e]; [|reflexivity].
  destruct (absolute (metric_is "cwECE" df) order) as [s3|e]; [|reflexivity].
  destruct (relative (metric_is "cwECE" df) order) as [s4|e]; reflexivity.
Qed.

Lemma combine_results_run absolute relative w :
  combine_results absolute relative w
  = match fst (load_all_results w) with
    | Err e => (Err e, w)
    | Ok df =>
        let outputs := combined_outputs absolute relative (filter_results df) in
        (fst outputs,
         mkWorld (write_all (snd outputs) (files w))
                 (plot_calls w ++ calls_of (snd outputs)))
    end.
Proof.
  unfold combine_results, bind. rewrite load_all_results_run. cbn [fst].
  destruct (rbind _ pd_concat) as [df|e]; [|reflexivity].
  rewrite plots_and_tables_run. reflexivity.
Qed.

Lemma lookup_app q fs1 fs2 :
  lookup_file q (fs1 ++ fs2)
  = match lookup_file q fs1 with
    | Some f => Some f
    | None => lookup_file q fs2
    end.
Proof.
  induction fs1 as [|[p f] t IH]; simpl; [reflexivity|].
  destruct (path_eqb q p); [reflexivity | exact IH].
Qed.

(** Of several writes to one path the last one stays. *)
Lemma lookup_write_all q outputs :
  forall fs,
    lookup_file q (write_all outputs fs)
    = match lookup_file q (rev outputs) with
      | Some f => Some f
      | None => lookup_file q fs
      end.
Proof.
  induction outputs as [|[p f] t IH]; intros fs; [reflexivity|].
  cbn [write_all fold_left fst snd]. fold (write_all t (write_file p f fs)).
  rewrite IH. cbn [rev]. rewrite lookup_app, lookup_write.
  destruct (lookup_file q (rev t)); [reflexivity|].
  simpl. now destruct (path_eqb q p).
Qed.

Lemma rmap_ok {A B} (f : A -> result B) l :
  forall ys, rmap f l = Ok ys -> Forall2 (fun x y => f x = Ok y) l ys.
Proof.
  induction l as [|x t IH]; simpl; intros ys H.
  - injection H as <-. constructor.
  - destruct (f x) as [y|e] eqn:E; [|discriminate]. cbn [rbind] in H.
    destruct (rmap f t) as [ys'|e]; [|discriminate]. cbn [rbind] in H.
    injection H as <-. constructor; auto.
Qed.

Lemma parse_csv_ok file sep df :
  parse_csv file sep = Ok df ->
  exists index, file = Some (CsvFile sep index (ResultsFrame df)).
Proof.
  destruct file as [[sep' index [df'|s]|]|]; simpl; try discriminate.
  destruct (String.eqb_spec sep' sep); [|discriminate].
  intros H. injection H as <-. subst. now exists index.
Qed.

Lemma in_metric_is m df r : In r (metric_is m df) <-> In r df /\ Metric r = m.
Proof.
  unfold metric_is. rewrite filter_In. now rewrite String.eqb_eq.
Qed.

Lemma combined_outputs_ok absolute relative df :
  fst (combined_outputs absolute relative df) = Ok tt ->
  exists order s1 s2 s3 s4,
    reduction_methods_order df = Ok order
    /\ absolute (metric_is "ECE" df) order = Ok s1
    /\ relative (metric_is "ECE" df) order = Ok s2
    /\ absolute (metric_is "cwECE" df) order = Ok s3
    /\ relative (metric_is "cwECE" df) order = Ok s4
    /\ snd (combined_outputs absolute relative df)
       = combined_plots df order
         ++ [summary_csv "ece_results_summary_absolute.csv" s1;
             summary_csv "ece_results_summary_relative.csv" s2;
             summary_csv "cwece_results_summary_absolute.csv" s3;
             summary_csv "cwece_results_summary_relative.csv" s4].
Proof.
  unfold combined_outputs.
  destruct (reduction_methods_order df) as [order|e]; [|discriminate].
  destruct (absolute (metric_is "ECE" df) order) as [s1|e] eqn:E1; [|discriminate].
  destruct (relative (metric_is "ECE" df) order) as [s2|e] eqn:E2; [|discriminate].
  destruct (absolute (metric_is "cwECE" df) order) as [s3|e] eqn:E3; [|discriminate].
  destruct (relative (metric_is "cwECE" df) order) as [s4|e] eqn:E4; [|discriminate].
  intros _. exists order, s1, s2, s3, s4. repeat split; assumption || reflexivity.
Qed.

(** C8. Every experiment notebook whose evaluation returned at least one
    result runs to its end and writes [results.csv] with a semicolon; the
    combining notebook reads every [results.csv] below the output directory
    with a semicolon, and the csv files it writes are exactly the four
    summaries, with a comma: the absolute and the relative summary of the
    rows whose metric is ECE and of the rows whose metric is cwECE. *)
Theorem C8_separators_and_summary_files :
  (forall (x : Experiment) (r : Row) (df1 df2 : Table) (w : World),
      fst (run_experiment x (r :: df1) df2 w) = Ok tt
      /\ lookup_file (OUTPUT_DIR // experiment_dir x // "results.csv")
                     (files (snd (run_experiment x (r :: df1) df2 w)))
         = Some (CsvFile ";" false (ResultsFrame (saved_frame x (r :: df1) df2))))
  /\ (forall (absolute relative : SummaryFunction) (w : World),
         fst (combine_results absolute relative w) = Ok tt ->
         let w' := snd (combine_results absolute relative w) in
         let output_dir := OUTPUT_DIR // "combined_results" in
         exists all_results order s1 s2 s3 s4,
           Forall2 (fun result_file df =>
                      exists index,
                        lookup_file result_file (files w)
                        = Some (CsvFile ";" index (ResultsFrame df)))
                   (map fst (filter (fun pf => path_name (fst pf) =? "results.csv")
                                    (files w)))
                   all_results
           /\ reduction_methods_order (filter_results (concat all_results)) = Ok order
           /\ absolute (filter (fun r => Metric r =? "ECE")
                               (filter_results (concat all_results))) order = Ok s1
           /\ relative (filter (fun r => Metric r =? "ECE")
                               (filter_results (concat all_results))) order = Ok s2
           /\ absolute (filter (fun r => Metric r =? "cwECE")
                               (filter_results (concat all_results))) order = Ok s3
           /\ relative (filter (fun r => Metric r =? "cwECE")
                               (filter_results (concat all_results))) order = Ok s4
           /\ lookup_file (output_dir // "ece_results_summary_absolute.csv") (files w')
              = Some (CsvFile "," true (SummaryFrame s1))
           /\ lookup_file (output_dir // "ece_results_summary_relative.csv") (files w')
              = Some (CsvFile "," true (SummaryFrame s2))
           /\ lookup_file (output_dir // "cwece_results_summary_absolute.csv") (files w')
              = Some (CsvFile "," true (SummaryFrame s3))
           /\ lookup_file (output_dir // "cwece_results_summary_relative.csv") (files w')
              = Some (CsvFile "," true (SummaryFrame s4))
           /\ (forall q sep index content,
                  lookup_file q (files w') = Some (CsvFile sep index content) ->
                  lookup_file q (files w) = Some (CsvFile sep index content)
                  \/ In q [output_dir // "ece_results_summary_absolute.csv";
                           output_dir // "ece_results_summary_relative.csv";
                           output_dir // "cwece_results_summary_absolute.csv";
                           output_dir // "cwece_results_summary_relative.csv"])).
Proof.
  split.
  - intros x r df1 df2 w.
    assert (H : fst (run_experiment x (r :: df1) df2 w) = Ok tt)
      by (apply experiment_completes; discriminate).
    split; [exact H|]. apply (experiment_outcome x (r :: df1) df2 w H).
  - intros absolute relative w. rewrite combine_results_run, load_all_results_run.
    cbn [fst].
    destruct (rmap _ (results_files (files w))) as [all_results|e] eqn:Eread;
      [|discriminate].
    cbn [rbind]. destruct (pd_concat all_results) as [df|e] eqn:Econcat;
      [|discriminate].
    assert (df = concat all_results) as ->.
    { destruct all_results; [discriminate | now injection Econcat]. }
    cbv zeta. cbn [fst snd]. intros Hok.
    destruct (combined_outputs_ok _ _ _ Hok)
      as (order & s1 & s2 & s3 & s4 & Ho & H1 & H2 & H3 & H4 & Hout).
    exists all_results, order, s1, s2, s3, s4.
    split.
    { apply rmap_ok in Eread. unfold results_files in Eread.
      eapply Forall2_impl; [|exact Eread].
      intros p df Hp. now apply parse_csv_ok in Hp. }
    do 5 (split; [assumption|]).
    cbn [files]. rewrite Hout.
    do 4 (split; [rewrite lookup_write_all; reflexivity|]).
    intros q sep index content. rewrite lookup_write_all.
    unfold combined_plots, summary_csv, combined_dir. cbn [rev app lookup_file].
    repeat match goal with
           | |- context [path_eqb q ?p] =>
               let E := fresh "E" in
               destruct (path_eqb q p) eqn:E;
               [apply path_eqb_eq in E; subst q;
                try discriminate; simpl; tauto|]
           end.
    intros H. now left.
Qed.

(** ** The filter of the combining notebook *)

Section Substrings.

Local Open Scope string_scope.

Lemma prefix_spec sub : forall s,
  String.prefix sub s = true <-> exists post, s = sub ++ post.
Proof.
  induction sub as [|a sub IH]; intros s.
  - destruct s; simpl; split; eauto.
  - destruct s as [|b s]; simpl.
    + split; [discriminate | intros [post H]; discriminate].
    + destruct (ascii_dec a b) as [->|Hab].
      * rewrite IH. split; intros [post H]; exists post; congruence.
      * split; [discriminate | intros [post H]; congruence].
Qed.

Lemma str_contains_step sub s :
  str_contains sub s
  = if String.prefix sub s then true
    else match s with
         | EmptyString => false
         | String _ t => str_contains sub t
         end.
Proof. destruct s; reflexivity. Qed.

Lemma str_contains_spec sub s :
  str_contains sub s = true <-> exists pre post, s = pre ++ sub ++ post.
Proof.
  induction s as [|c s IH]; rewrite str_contains_step;
    destruct (String.prefix sub _) eqn:E.
  - split; [intros _|reflexivity].
    apply prefix_spec in E. destruct E as [post E]. now exists "", post.
  - split; [discriminate|]. intros (pre & post & H).
    destruct pre; [|discriminate]. simpl in H.
    assert (String.prefix sub "" = true) by (apply prefix_spec; eauto).
    congruence.
  - split; [intros _|reflexivity].
    apply prefix_spec in E. destruct E as [post E]. now exists "", post.
  - rewrite IH. split.
    + intros (pre & post & ->). now exists (String c pre), post.
    + intros (pre & post & H). destruct pre as [|c' pre].
      * simpl in H.
        assert (String.prefix sub (String c s) = true)
          by (apply prefix_spec; eauto).
        congruence.
      * injection H as -> ->. eauto.
Qed.

Lemma str_lower_app a b : str_lower (a ++ b) = str_lower a ++ str_lower b.
Proof. induction a; simpl; congruence. Qed.

Lemma str_lower_split a : forall s b,
  str_lower s = a ++ b ->
  exists a' b', s = a' ++ b' /\ str_lower a' = a /\ str_lower b' = b.
Proof.
  induction a as [|c a IH]; intros s b H.
  - now exists "", s.
  - destruct s as [|c' s]; [discriminate|]. simpl in H. injection H as Hc H.
    destruct (IH _ _ H) as (a' & b' & -> & <- & <-).
    exists (String c' a'), b'. simpl. now rewrite Hc.
Qed.

Lemma contains_lower_spec sub s :
  str_contains sub (str_lower s) = true <-> occurs_in_any_case sub s.
Proof.
  rewrite str_contains_spec. unfold occurs_in_any_case. split.
  - intros (pre & post & H).
    apply str_lower_split in H. destruct H as (pre' & rest & -> & _ & H).
    apply str_lower_split in H. destruct H as (mid & post' & -> & H & _).
    now exists pre', mid, post'.
  - intros (pre & mid & post & -> & <-).
    exists (str_lower pre), (str_lower post). now rewrite !str_lower_app.
Qed.

End Substrings.

Lemma not_weighted_spec r : not_weighted r = true <-> ~ is_weighted r.
Proof.
  unfold not_weighted, is_weighted. rewrite negb_true_iff, <- contains_lower_spec.
  destruct (str_contains "weighted" (str_lower (Reduction_Method r)));
    split; congruence.
Qed.

Lemma filter_results_kept df : filter_results df = filter kept df.
Proof.
  unfold filter_results, drop_weighted, query_not_diagnostic, kept.
  induction df as [|r t IH]; [reflexivity|]. simpl.
  destruct (not_diagnostic r); simpl; [|exact IH].
  destruct (not_weighted r); now rewrite IH.
Qed.

Lemma kept_spec r : kept r = true <-> ~ is_diagnostic r /\ ~ is_weighted r.
Proof.
  unfold kept, is_diagnostic.
  rewrite andb_true_iff, not_diagnostic_spec, not_weighted_spec. tauto.
Qed.

Lemma filter_results_app a b :
  filter_results (a ++ b) = filter_results a ++ filter_results b.
Proof. rewrite !filter_results_kept. apply filter_app. Qed.

Lemma filter_results_concat l :
  filter_results (concat l) = concat (map filter_results l).
Proof.
  induction l as [|a t IH]; [reflexivity|].
  simpl. now rewrite filter_results_app, IH.
Qed.

Lemma filter_results_dropped df1 r df2 :
  is_diagnostic r \/ is_weighted r ->
  filter_results (df1 ++ r :: df2) = filter_results (df1 ++ df2).
Proof.
  intros H. rewrite !filter_results_app. f_equal.
  rewrite !filter_results_kept. simpl.
  destruct (kept r) eqn:E; [|reflexivity].
  apply kept_spec in E. tauto.
Qed.

Section OneRowMore.

Variables (fs1 fs2 : list (Path * File)) (p : Path) (sep : string) (index : bool).
Variables (df1 df2 : Table) (r : Row).
Hypothesis r_dropped : is_diagnostic r \/ is_weighted r.

Let with_row := fs1 ++ (p, CsvFile sep index (ResultsFrame (df1 ++ r :: df2))) :: fs2.
Let without_row := fs1 ++ (p, CsvFile sep index (ResultsFrame (df1 ++ df2))) :: fs2.

Lemma results_files_same : results_files with_row = results_files without_row.
Proof.
  unfold results_files, with_row, without_row.
  rewrite !filter_app, !map_app. f_equal. simpl.
  destruct (path_name p =? "results.csv")%string; reflexivity.
Qed.

Lemma lookup_elsewhere q :
  q <> p -> lookup_file q with_row = lookup_file q without_row.
Proof.
  intros H. unfold with_row, without_row. rewrite !lookup_app. simpl.
  now rewrite (path_eqb_neq _ _ H).
Qed.

Lemma parse_same q sep' :
  same_after_filter (parse_csv (lookup_file q with_row) sep')
                    (parse_csv (lookup_file q without_row) sep').
Proof.
  assert (Hrefl : forall x, same_after_filter x x) by (intros [a|e]; reflexivity).
  unfold with_row, without_row. rewrite !lookup_app.
  destruct (lookup_file q fs1); [apply Hrefl|]. simpl.
  destruct (path_eqb q p); [|apply Hrefl]. simpl.
  destruct (sep =? sep')%string; simpl; [|reflexivity].
  now apply filter_results_dropped.
Qed.

Lemma read_all_same paths sep' :
  match rmap (fun q => parse_csv (lookup_file q with_row) sep') paths,
        rmap (fun q => parse_csv (lookup_file q without_row) sep') paths with
  | Ok xs, Ok ys =>
      Forall2 (fun a b => filter_results a = filter_results b) xs ys
  | Err e1, Err e2 => e1 = e2
  | _, _ => False
  end.
Proof.
  induction paths as [|q t IH]; cbn [rmap]; [constructor|].
  pose proof (parse_same q sep') as Hq. unfold same_after_filter in Hq.
  destruct (parse_csv (lookup_file q with_row) sep') as [a|e1],
           (parse_csv (lookup_file q without_row) sep') as [b|e2];
    try contradiction; cbn [rbind]; [|exact Hq].
  destruct (rmap _ t) as [xs|e1], (rmap _ t) as [ys|e2];
    try contradiction; cbn [rbind]; [|exact IH].
  now constructor.
Qed.

Lemma load_same calls1 calls2 :
  same_after_filter (fst (load_all_results (mkWorld with_row calls1)))
                    (fst (load_all_results (mkWorld without_row calls2))).
Proof.
  rewrite !load_all_results_run. cbn [fst files].
  rewrite results_files_same.
  pose proof (read_all_same (results_files without_row) ";") as H.
  destruct (rmap _ _) as [xs|e1], (rmap _ _) as [ys|e2];
    try contradiction; cbn [rbind]; [|exact H].
  destruct H as [|a b xs ys Hab H]; [reflexivity|].
  cbn [pd_concat same_after_filter].
  rewrite !filter_results_concat. cbn [map concat]. rewrite Hab. f_equal.
  induction H as [|? ? ? ? E _ IH]; [reflexivity|].
  cbn [map concat]. now rewrite E, IH.
Qed.

(** The combining notebook cannot tell a results file with a dropped row
    from the same file without it. *)
Lemma combine_ignores_dropped_row absolute relative calls :
  let w1 := mkWorld with_row calls in
  let w2 := mkWorld without_row calls in
  fst (combine_results absolute relative w1)
  = fst (combine_results absolute relative w2)
  /\ plot_calls (snd (combine_results absolute relative w1))
     = plot_calls (snd (combine_results absolute relative w2))
  /\ forall q, q <> p ->
               lookup_file q (files (snd (combine_results absolute relative w1)))
               = lookup_file q (files (snd (combine_results absolute relative w2))).
Proof.
  cbv zeta. rewrite !combine_results_run.
  pose proof (load_same calls calls) as H.
  unfold same_after_filter in H.
  destruct (fst (load_all_results (mkWorld with_row calls))) as [a|e1],
           (fst (load_all_results (mkWorld without_row calls))) as [b|e2];
    try contradiction.
  - cbv zeta. cbn [fst snd files plot_calls]. rewrite H.
    split; [reflexivity|]. split; [reflexivity|].
    intros q Hq. rewrite !lookup_write_all.
    now rewrite (lookup_elsewhere q Hq).
  - subst e2. cbn [fst snd files plot_calls].
    split; [reflexivity|]. split; [reflexivity|].
    intros q Hq. now apply lookup_elsewhere.
Qed.

End OneRowMore.

(** C3. The combining notebook filters before it orders, plots or
    aggregates: a row stays exactly when its metric is neither [condition]
    nor [weak_condition] and its variant does not contain "weighted" in any
    letter case; and with a results file that has one such row more, the
    notebook ends the same way, makes the same plotting calls and leaves the
    same content in every other file, the summary tables among them. *)
Theorem C3_diagnostic_and_weighted_rows_dropped :
  (forall (df : Table) (r : Row),
      In r (filter_results df)
      <-> In r df
          /\ Metric r <> "condition" /\ Metric r <> "weak_condition"
          /\ ~ occurs_in_any_case "weighted" (Reduction_Method r))
  /\ (forall (absolute relative : SummaryFunction) (w : World),
         combine_results absolute relative w
         = bind load_all_results
                (fun df => plots_and_tables absolute relative (filter_results df)) w)
  /\ (forall (absolute relative : SummaryFunction)
            (fs1 fs2 : list (Path * File)) (calls : list PlotCall)
            (p : Path) (sep : string) (index : bool)
            (df1 df2 : Table) (r : Row),
         (Metric r = "condition" \/ Metric r = "weak_condition")
         \/ occurs_in_any_case "weighted" (Reduction_Method r) ->
         let with_row :=
           mkWorld (fs1 ++ (p, CsvFile sep index (ResultsFrame (df1 ++ r :: df2))) :: fs2)
                   calls in
         let without_row :=
           mkWorld (fs1 ++ (p, CsvFile sep index (ResultsFrame (df1 ++ df2))) :: fs2)
                   calls in
         fst (combine_results absolute relative with_row)
         = fst (combine_results absolute relative without_row)
         /\ plot_calls (snd (combine_results absolute relative with_row))
            = plot_calls (snd (combine_results absolute relative without_row))
         /\ forall q, q <> p ->
                      lookup_file q (files (snd (combine_results absolute relative with_row)))
                      = lookup_file q (files (snd (combine_results absolute relative without_row)))).
Proof.
  split; [|split].
  - intros df r. rewrite filter_results_kept, filter_In, kept_spec.
    unfold is_diagnostic, is_weighted. tauto.
  - reflexivity.
  - intros absolute relative fs1 fs2 calls p sep index df1 df2 r H.
    now apply combine_ignores_dropped_row.
Qed.

(** ** The aggregator *)

Lemma Forall2_in_right {A B} (P : A -> B -> Prop) l ys y :
  Forall2 P l ys -> In y ys -> exists x, In x l /\ P x y.
Proof.
  induction 1 as [|x y' l ys Hxy _ IH]; intros Hin; [contradiction|].
  destruct Hin as [<-|Hin].
  - exists x. split; [now left | exact Hxy].
  - destruct (IH Hin) as (x' & Hx' & HP). exists x'. split; [now right | exact HP].
Qed.

Lemma Forall2_in_left {A B} (P : A -> B -> Prop) l ys x :
  Forall2 P l ys -> In x l -> exists y, In y ys /\ P x y.
Proof.
  induction 1 as [|x' y l ys Hxy _ IH]; intros Hin; [contradiction|].
  destruct Hin as [<-|Hin].
  - exists y. split; [now left | exact Hxy].
  - destruct (IH Hin) as (y' & Hy' & HP). exists y'. split; [now right | exact HP].
Qed.



Lemma summarize_group_ok value bm df k v s :
  summarize_group value bm df k v = Ok s ->
  group_scores df k v <> []
  /\ s_key s = k /\ s_Reduction_Method s = v /\ s_baseline_mean s = bm
  /\ s_mean s = Qmean (map value (group_scores df k v))
  /\ s_std_squared s = Qstd_squared (map value (group_scores df k v)).
Proof.
  unfold summarize_group.
  destruct (group_scores df k v) as [|x xs]; [discriminate|].
  destruct k as [[[model dataset] method] metric].
  intros H. injection H as <-. repeat split. discriminate.
Qed.


Lemma map_id_scores (l : list Q) : map (fun x => x) l = l.
Proof. apply map_id. Qed.

(** The records of an absolute summary, one by one. *)
Lemma absolute_records df order tbl :
  create_summary_table_with_absolute_values_and_stddev df order = Ok tbl ->
  (forall s, In s tbl ->
             exists k v, In k (group_keys df) /\ In v order
                         /\ summarize_group (fun x => x) None df k v = Ok s)
  /\ (forall k v, In k (group_keys df) -> In v order ->
                  exists s, In s tbl
                            /\ summarize_group (fun x => x) None df k v = Ok s).
Proof.
  unfold create_summary_table_with_absolute_values_and_stddev.
  destruct (rmap _ (group_keys df)) as [rows|e] eqn:E; [|discriminate].
  cbn [rbind]. intros H. injection H as <-.
  apply rmap_ok in E. split.
  - intros s Hs. apply in_concat in Hs. destruct Hs as (row & Hrow & Hs).
    destruct (Forall2_in_right _ _ _ _ E Hrow) as (k & Hk & Hrmap).
    apply rmap_ok in Hrmap.
    destruct (Forall2_in_right _ _ _ _ Hrmap Hs) as (v & Hv & Hsv).
    now exists k, v.
  - intros k v Hk Hv.
    destruct (Forall2_in_left _ _ _ _ E Hk) as (row & Hrow & Hrmap).
    apply rmap_ok in Hrmap.
    destruct (Forall2_in_left _ _ _ _ Hrmap Hv) as (s & Hs & Hsv).
    exists s. split; [|exact Hsv]. apply in_concat. eauto.
Qed.

(** The records of a relative-change summary, one by one. *)
Lemma relative_records df baseline rest tbl :
  create_summary_table_with_relative_change_and_stddev df (baseline :: rest) = Ok tbl ->
  (forall s, In s tbl ->
             exists k v,
               In k (group_keys df) /\ In v (baseline :: rest)
               /\ group_scores df k baseline <> []
               /\ Qeq_bool (Qmean (group_scores df k baseline)) 0 = false
               /\ summarize_group
                    (relative_change (Qmean (group_scores df k baseline)))
                    (Some (Qmean (group_scores df k baseline))) df k v = Ok s)
  /\ (forall k v, In k (group_keys df) -> In v (baseline :: rest) ->
                  exists s,
                    In s tbl
                    /\ summarize_group
                         (relative_change (Qmean (group_scores df k baseline)))
                         (Some (Qmean (group_scores df k baseline))) df k v = Ok s).
Proof.
  unfold create_summary_table_with_relative_change_and_stddev.
  destruct (rmap _ (group_keys df)) as [rows|e] eqn:E; [|discriminate].
  cbn [rbind]. intros H. injection H as <-.
  apply rmap_ok in E. split.
  - intros s Hs. apply in_concat in Hs. destruct Hs as (row & Hrow & Hs).
    destruct (Forall2_in_right _ _ _ _ E Hrow) as (k & Hk & Hrmap).
    destruct (group_scores df k baseline) as [|x xs] eqn:Eb; [discriminate|].
    destruct (Qeq_bool (Qmean (x :: xs)) 0) eqn:Ez; [discriminate|].
    apply rmap_ok in Hrmap.
    destruct (Forall2_in_right _ _ _ _ Hrmap Hs) as (v & Hv & Hsv).
    exists k, v. rewrite Eb. repeat split; auto. discriminate.
  - intros k v Hk Hv.
    destruct (Forall2_in_left _ _ _ _ E Hk) as (row & Hrow & Hrmap).
    destruct (group_scores df k baseline) as [|x xs] eqn:Eb; [discriminate|].
    destruct (Qeq_bool (Qmean (x :: xs)) 0) eqn:Ez; [discriminate|].
    apply rmap_ok in Hrmap.
    destruct (Forall2_in_left _ _ _ _ Hrmap Hv) as (s & Hs & Hsv).
    exists s. split; [|exact Hsv]. apply in_concat. eauto.
Qed.

Lemma Qcount_cons x l : (Qcount (x :: l) == Qcount l + 1)%Q.
Proof.
  unfold Qcount. cbn [length]. rewrite Nat2Z.inj_succ, <- Z.add_1_r.
  now rewrite inject_Z_plus.
Qed.

Lemma Qcount_nonzero l : l <> [] -> ~ (Qcount l == 0)%Q.
Proof.
  intros Hl H. unfold Qcount in H.
  assert (E : Z.of_nat (length l) = 0%Z).
  { unfold Qeq in H. simpl in H. lia. }
  destruct l; [congruence | simpl in E; lia].
Qed.

(** The relative changes of the values of a group add up to the relative
    change of their sum against as many baseline means. *)
Lemma Qsum_relative_change bm l :
  ~ (bm == 0)%Q ->
  (Qsum (map (relative_change bm) l) == (Qsum l - Qcount l * bm) / bm * 100)%Q.
Proof.
  intros Hbm. induction l as [|x t IH].
  - unfold Qcount. simpl. field. exact Hbm.
  - cbn [map Qsum fold_right]. fold (Qsum (map (relative_change bm) t)).
    fold (Qsum t). rewrite IH, Qcount_cons. unfold relative_change.
    field. exact Hbm.
Qed.

(** The mean is linear: the mean of the relative changes is the relative
    change of the mean. *)
Lemma Qmean_relative_change bm l :
  l <> [] -> ~ (bm == 0)%Q ->
  (Qmean (map (relative_change bm) l) == relative_change bm (Qmean l))%Q.
Proof.
  intros Hl Hbm. unfold Qmean.
  rewrite Qsum_relative_change by exact Hbm.
  assert (Hc : Qcount (map (relative_change bm) l) = Qcount l)
    by (unfold Qcount; now rewrite length_map).
  rewrite Hc. unfold relative_change.
  pose proof (Qcount_nonzero l Hl) as Hn.
  field. split; assumption.
Qed.

Lemma reconstruct_relative_change bm m :
  ~ (bm == 0)%Q -> (reconstruct_absolute bm (relative_change bm m) == m)%Q.
Proof.
  intros Hbm. unfold reconstruct_absolute, relative_change. field. exact Hbm.
Qed.

(** C1. In a relative-change summary every record holds the relative change
    [(value - baseline_mean) / baseline_mean * 100] of the mean over the folds
    of its variant against the mean over the folds of the baseline variant of
    its group, which it records and which is not zero; the absolute mean
    rebuilt from the two is the mean the absolute summary has for that
    variant.  (Rationals stand for the floating-point numbers; the equations
    are exact.) *)
Theorem C1_relative_change_round_trip :
  forall (df : Table) (order : list string) (tbl : SummaryTable) (s : SummaryRecord),
    create_summary_table_with_relative_change_and_stddev df order = Ok tbl ->
    In s tbl ->
    exists baseline rest baseline_mean,
      order = baseline :: rest
      /\ s_baseline_mean s = Some baseline_mean
      /\ baseline_mean = Qmean (group_scores df (s_key s) baseline)
      /\ ~ (baseline_mean == 0)%Q
      /\ let absolute_mean :=
           Qmean (group_scores df (s_key s) (s_Reduction_Method s)) in
         (s_mean s == (absolute_mean - baseline_mean) / baseline_mean * 100)%Q
         /\ (s_mean s / 100 * baseline_mean + baseline_mean == absolute_mean)%Q
         /\ forall tbl_abs,
             create_summary_table_with_absolute_values_and_stddev df order = Ok tbl_abs ->
             exists s_abs,
               In s_abs tbl_abs
               /\ s_key s_abs = s_key s
               /\ s_Reduction_Method s_abs = s_Reduction_Method s
               /\ s_mean s_abs = absolute_mean.
Proof.
  intros df order tbl s Hrel Hs.
  destruct order as [|baseline rest].
  { injection Hrel as <-. contradiction. }
  destruct (relative_records _ _ _ _ Hrel) as [Hrec _].
  destruct (Hrec s Hs) as (k & v & Hk & Hv & Hb & Hz & Hsum).
  apply summarize_group_ok in Hsum.
  destruct Hsum as (Hne & Hkey & Hvar & Hbm & Hmean & _).
  exists baseline, rest, (Qmean (group_scores df k baseline)).
  rewrite Hkey, Hvar.
  assert (Hnz : ~ (Qmean (group_scores df k baseline) == 0)%Q).
  { intros E. apply Qeq_bool_iff in E. congruence. }
  repeat split; auto.
  - rewrite Hmean. now apply Qmean_relative_change.
  - rewrite Hmean, Qmean_relative_change by assumption.
    now apply reconstruct_relative_change.
  - intros tbl_abs Habs.
    destruct (absolute_records _ _ _ Habs) as [_ Hall].
    destruct (Hall k v Hk Hv) as (s' & Hs' & Hsum').
    apply summarize_group_ok in Hsum'.
    destruct Hsum' as (_ & Hkey' & Hvar' & _ & Hmean' & _).
    exists s'. rewrite map_id_scores in Hmean'. auto.
Qed.



(** ** The fold split *)

Lemma list_sum_shift a (g : nat -> nat) l :
  list_sum (map (fun f => a + g f) l) = a * length l + list_sum (map g l).
Proof.
  induction l as [|x t IH]; simpl; [lia|]. rewrite IH. lia.
Qed.

Lemma list_sum_below r c :
  list_sum (map (fun f => if (f <? r)%nat then 1 else 0) (seq 0 c)) = Nat.min r c.
Proof.
  induction c as [|c IH]; [now rewrite Nat.min_0_r|].
  rewrite seq_S, map_app, list_sum_app, IH. simpl.
  destruct (Nat.ltb_spec c r); lia.
Qed.

Lemma fold_sizes_sum cv n : 0 < cv -> list_sum (fold_sizes cv n) = n.
Proof.
  intros Hcv. unfold fold_sizes.
  rewrite list_sum_shift, list_sum_below, length_seq.
  pose proof (Nat.mod_upper_bound n cv ltac:(lia)) as Hr.
  pose proof (Nat.div_mod_eq n cv) as Hd.
  rewrite Nat.min_l by lia. lia.
Qed.

Lemma chunks_length {A} sizes : forall l : list A, length (chunks sizes l) = length sizes.
Proof. induction sizes; intros l; simpl; auto. Qed.

Lemma firstn_sum {A} a b : forall l : list A,
  firstn (a + b) l = firstn a l ++ firstn b (skipn a l).
Proof.
  induction a as [|a IH]; intros l; [reflexivity|].
  destruct l as [|x t]; simpl.
  - now rewrite firstn_nil.
  - now rewrite IH.
Qed.

(** The pieces put together again are the part of the list that was cut. *)
Lemma concat_chunks {A} sizes : forall l : list A,
  concat (chunks sizes l) = firstn (list_sum sizes) l.
Proof.
  induction sizes as [|k rest IH]; intros l; simpl; [reflexivity|].
  now rewrite IH, firstn_sum.
Qed.

Lemma in_concat_nth {A} (L : list (list A)) i :
  In i (concat L) <-> exists f, f < length L /\ In i (nth f L []).
Proof.
  induction L as [|a t IH]; simpl.
  - split; [contradiction | intros (f & Hf & _); lia].
  - rewrite in_app_iff, IH. split.
    + intros [H|(f & Hf & H)].
      * exists 0. split; [lia | exact H].
      * exists (S f). split; [lia | exact H].
    + intros (f & Hf & H). destruct f as [|f]; [now left|].
      right. exists f. split; [lia | exact H].
Qed.

Lemma nodup_concat_one_fold {A} (L : list (list A)) i :
  NoDup (concat L) ->
  forall f f', In i (nth f L []) -> In i (nth f' L []) -> f = f'.
Proof.
  induction L as [|a t IH]; intros Hnd f f' Hf Hf'.
  - destruct f; contradiction.
  - simpl in Hnd. apply NoDup_app_remove_l in Hnd as Ht.
    assert (Hdis : forall j, In i a -> In i (nth j t []) -> False).
    { intros j Ha Hj.
      assert (Hc : In i (concat t)).
      { apply in_concat_nth.
        destruct (Nat.lt_ge_cases j (length t)) as [Hlt|Hge]; [eauto|].
        rewrite nth_overflow in Hj by exact Hge. contradiction. }
      revert Hnd Ha Hc. clear. induction a as [|x a IHa]; [contradiction|].
      simpl. intros Hnd [->|Ha] Hc.
      - inversion Hnd as [|? ? Hx _]; subst. apply Hx, in_app_iff. now right.
      - inversion Hnd; subst. eauto. }
    destruct f as [|f], f' as [|f']; simpl in Hf, Hf'.
    + reflexivity.
    + exfalso. eauto.
    + exfalso. eauto.
    + f_equal. eauto.
Qed.

Lemma in_fitting_set (L : list (list nat)) i :
  forall f, In i (fitting_set L f) <-> exists f', f' <> f /\ In i (nth f' L []).
Proof.
  unfold fitting_set. induction L as [|a t IH]; intros f.
  - rewrite firstn_nil, skipn_nil. simpl. split; [contradiction|].
    intros (f' & _ & H). destruct f'; contradiction.
  - destruct f as [|f].
    + cbn [firstn skipn app]. rewrite in_concat_nth. split.
      * intros (j & Hj & H). exists (S j). split; [lia | exact H].
      * intros (j & Hj & H). destruct j as [|j]; [congruence|]. simpl in H.
        destruct (Nat.lt_ge_cases j (length t)) as [Hlt|Hge]; [eauto|].
        rewrite nth_overflow in H by exact Hge. contradiction.
    + cbn [firstn skipn app concat]. rewrite in_app_iff, (IH f). split.
      * intros [H|(j & Hj & H)].
        -- exists 0. split; [lia | exact H].
        -- exists (S j). split; [lia | exact H].
      * intros (j & Hj & H). destruct j as [|j]; [now left|].
        right. exists j. split; [lia | exact H].
Qed.

Section FoldSplit.

Variable RngState : Type.
Variable rng_shuffle : RngState -> list nat -> list nat * RngState.

(** The generator shuffles: what it returns is a rearrangement. *)
Hypothesis rng_shuffle_permutes :
  forall g l, Permutation (fst (rng_shuffle g l)) l.

Lemma fold_split_concat cv n g :
  0 < cv ->
  concat (fst (fold_split RngState rng_shuffle cv n g)) = fst (rng_shuffle g (seq 0 n)).
Proof.
  intros Hcv. unfold fold_split.
  pose proof (rng_shuffle_permutes g (seq 0 n)) as Hp.
  destruct (rng_shuffle g (seq 0 n)) as [shuffled g']. cbn [fst] in *.
  rewrite concat_chunks, fold_sizes_sum by exact Hcv.
  apply firstn_all2. apply Permutation_length in Hp.
  rewrite length_seq in Hp. lia.
Qed.

(** C5. With at least two folds, the split has as many held-out groups as
    folds; every sample index is in exactly one of them, nothing else is in
    any, and none is in a group twice; and the fitting set of a fold holds
    exactly the indices that are not held out in that fold. *)
Theorem C5_folds_partition_the_indices :
  forall (cv n : nat) (g : RngState),
    2 <= cv ->
    let folds := fst (fold_split RngState rng_shuffle cv n g) in
    length folds = cv
    /\ NoDup (concat folds)
    /\ (forall i, i < n <-> exists f, f < cv /\ In i (held_out folds f))
    /\ (forall i f f',
           In i (held_out folds f) -> In i (held_out folds f') -> f = f')
    /\ (forall f i,
           In i (fitting_set folds f) <-> i < n /\ ~ In i (held_out folds f)).
Proof.
  intros cv n g Hcv folds.
  assert (Hconcat : Permutation (concat folds) (seq 0 n)).
  { unfold folds. rewrite fold_split_concat by lia. apply rng_shuffle_permutes. }
  assert (Hlen : length folds = cv).
  { unfold folds, fold_split. destruct (rng_shuffle g (seq 0 n)). cbn [fst].
    rewrite chunks_length. unfold fold_sizes. now rewrite length_map, length_seq. }
  assert (Hnd : NoDup (concat folds)).
  { eapply Permutation_NoDup; [symmetry; exact Hconcat | apply seq_NoDup]. }
  assert (Hin : forall i, i < n <-> In i (concat folds)).
  { intros i. split; intros H.
    - eapply Permutation_in; [symmetry; exact Hconcat|]. apply in_seq. lia.
    - eapply Permutation_in in H; [|exact Hconcat]. apply in_seq in H. lia. }
  assert (Hone : forall i f f',
             In i (held_out folds f) -> In i (held_out folds f') -> f = f').
  { intros i. now apply nodup_concat_one_fold. }
  split; [exact Hlen|]. split; [exact Hnd|].
  split; [|split; [exact Hone|]].
  - intros i. rewrite Hin, in_concat_nth, Hlen. reflexivity.
  - intros f i. rewrite in_fitting_set, Hin, in_concat_nth. split.
    + intros (f' & Hf' & H). split.
      * exists f'. split; [|exact H].
        destruct (Nat.lt_ge_cases f' (length folds)) as [Hlt|Hge]; [exact Hlt|].
        rewrite nth_overflow in H by exact Hge. contradiction.
      * intros Hf. apply Hf'. now apply (Hone i).
    + intros [(f' & _ & H) Hnot]. exists f'. split; [|exact H].
      intros ->. now apply Hnot.
Qed.

End FoldSplit.

(** * Runs on sample data *)

Example relative_change_of_reduced :
  s_Reduction_Method sample_relative_record = "Reduced"
  /\ (s_mean sample_relative_record == - (50))%Q.
Proof. split; reflexivity. Qed.

Example weighted_in_any_case :
  filter_results [weighted_row; row "Weighted" "ECE" 0 0; row "Reduced" "ECE" 0 0]
  = [row "Reduced" "ECE" 0 0].
Proof. reflexivity. Qed.

Example folds_of_seven_samples :
  fst (fold_split nat reversing_shuffle 3 7 0) = [[6; 5; 4]; [3; 2]; [1; 0]]
  /\ fitting_set (fst (fold_split nat reversing_shuffle 3 7 0)) 1 = [6; 5; 4; 1; 0].
Proof. split; reflexivity. Qed.

(** The fold assignment follows the state the generator is in. *)
Example fold_split_follows_generator_state :
  fst (fold_split nat rotating_shuffle 2 4 0) <> fst (fold_split nat rotating_shuffle 2 4 1).
Proof. discriminate. Qed.

Lemma C1_relative_change_round_trip_witness :
  exists baseline rest baseline_mean,
    ["Baseline"; "Reduced"] = baseline :: rest
    /\ s_baseline_mean sample_relative_record = Some baseline_mean
    /\ (s_mean sample_relative_record / 100 * baseline_mean + baseline_mean
        == Qmean (group_scores sample_ece (s_key sample_relative_record) "Reduced"))%Q.
Proof.
  destruct (C1_relative_change_round_trip
              sample_ece ["Baseline"; "Reduced"]
              sample_relative_summary sample_relative_record)
    as (baseline & rest & bm & Ho & Hb & _ & _ & _ & Hround & _).
  - vm_compute. reflexivity.
  - vm_compute. right. left. reflexivity.
  - exists baseline, rest, bm. split; [exact Ho|]. split; [exact Hb|]. exact Hround.
Defined.

Lemma C3_diagnostic_and_weighted_rows_dropped_witness :
  fst (combine_results
         create_summary_table_with_absolute_values_and_stddev
         create_summary_table_with_relative_change_and_stddev
         (mkWorld ([] ++ (OUTPUT_DIR // "deit_rvl_cdip" // "results.csv",
                          CsvFile ";" false
                            (ResultsFrame ([row "Baseline" "ECE" 0 (4 # 100)]
                                           ++ condition_row
                                           :: [row "Reduced" "ECE" 0 (2 # 100)])))
                      :: []) []))
  = fst (combine_results
           create_summary_table_with_absolute_values_and_stddev
           create_summary_table_with_relative_change_and_stddev
           (mkWorld ([] ++ (OUTPUT_DIR // "deit_rvl_cdip" // "results.csv",
                            CsvFile ";" false
                              (ResultsFrame ([row "Baseline" "ECE" 0 (4 # 100)]
                                             ++ [row "Reduced" "ECE" 0 (2 # 100)])))
                        :: []) [])).
Proof.
  apply (proj2 (proj2 C3_diagnostic_and_weighted_rows_dropped)
           create_summary_table_with_absolute_values_and_stddev
           create_summary_table_with_relative_change_and_stddev
           [] [] [] (OUTPUT_DIR // "deit_rvl_cdip" // "results.csv") ";" false
           [row "Baseline" "ECE" 0 (4 # 100)] [row "Reduced" "ECE" 0 (2 # 100)]
           condition_row).
  left. left. reflexivity.
Defined.


Lemma C5_folds_partition_the_indices_witness :
  let folds := fst (fold_split nat reversing_shuffle 3 7 0) in
  length folds = 3
  /\ NoDup (concat folds)
  /\ (forall i, i < 7 <-> exists f, f < 3 /\ In i (held_out folds f))
  /\ (forall i f f',
         In i (held_out folds f) -> In i (held_out folds f') -> f = f')
  /\ (forall f i,
         In i (fitting_set folds f) <-> i < 7 /\ ~ In i (held_out folds f)).
Proof.
  apply (C5_folds_partition_the_indices nat reversing_shuffle).
  - intros g l. simpl. symmetry. apply Permutation_rev.
  - lia.
Defined.

Lemma C7_saved_before_diagnostic_filter_witness :
  saves_the_diagnostic_row DeiT
  /\ saves_the_diagnostic_row DistilBERT
  /\ saves_the_diagnostic_row ResNet56
  /\ saves_the_diagnostic_row LightGBM
  /\ saves_the_diagnostic_row RandomForest.
Proof.
  assert (H : forall x, saves_the_diagnostic_row x).
  { intros x. unfold saves_the_diagnostic_row.
    destruct (C7_saved_before_diagnostic_filter
                x sample_results sample_results empty_world condition_row)
      as (Hrun & saved & new_calls & Hfile & Hin & Hcalls & Hnil & Hrows).
    - discriminate.
    - destruct x; simpl; tauto.
    - left. reflexivity.
    - split; [exact Hrun|]. exists saved, new_calls.
      repeat split; try assumption; now apply Hrows. }
  repeat split; apply H.
Defined.

Lemma C8_separators_and_summary_files_witness :
  (writes_results_with_semicolon DeiT
   /\ writes_results_with_semicolon DistilBERT
   /\ writes_results_with_semicolon ResNet56
   /\ writes_results_with_semicolon LightGBM
   /\ writes_results_with_semicolon RandomForest)
  /\ exists s1,
      lookup_file (OUTPUT_DIR // "combined_results" // "ece_results_summary_absolute.csv")
                  (files (snd (combine_results
                                 create_summary_table_with_absolute_values_and_stddev
                                 create_summary_table_with_relative_change_and_stddev
                                 world_after_deit)))
      = Some (CsvFile "," true (SummaryFrame s1)).
Proof.
  split.
  - assert (H : forall x, writes_results_with_semicolon x).
    { intros x. unfold writes_results_with_semicolon, sample_results.
      apply (proj1 C8_separators_and_summary_files x). }
    repeat split; apply H.
  - destruct (proj2 C8_separators_and_summary_files
                create_summary_table_with_absolute_values_and_stddev
                create_summary_table_with_relative_change_and_stddev
                world_after_deit)
      as (all_results & order & s1 & s2 & s3 & s4 & H).
    + vm_compute. reflexivity.
    + exists s1. apply H.
Defined.

Lemma C10_rf_imbalanced_plot_overwrites_balanced_witness :
  let w' := snd (random_forest_synthetic rf_balanced_sample rf_imbalanced_sample
                                         empty_world) in
  lookup_file (OUTPUT_DIR // "random_forest_synthetic" // "evaluation_ECE_rf_balanced.eps")
              (files w')
  = Some (PlotFile [rf_row "Synthetic Imbalanced" "BetaCalibration" "Baseline" "ECE"]
                   ["Baseline"; "Reduced"])
  /\ lookup_file (OUTPUT_DIR // "random_forest_synthetic" // "evaluation_ECE_rf_imbalanced.eps")
                 (files w')
     = None.
Proof.
  destruct (C10_rf_imbalanced_plot_overwrites_balanced
              rf_balanced_sample rf_imbalanced_sample empty_world)
    as (order & temperature & Hcalls & Hfile & _ & Hnone).
  - reflexivity.
  - split.
    + cbv zeta. rewrite Hfile. f_equal. f_equal.
      vm_compute in Hcalls. now injection Hcalls.
    + exact Hnone.
Defined.

(** * Further properties of the notebooks *)

(** ** The ordering, again *)

Lemma existsb_eqb_in x seen : existsb (String.eqb x) seen = true <-> In x seen.
Proof.
  rewrite existsb_exists. split.
  - intros (y & Hy & E). apply String.eqb_eq in E. now subst.
  - intros H. exists x. split; [exact H | apply String.eqb_refl].
Qed.

Lemma in_unique_from l : forall seen x,
  In x (unique_from String.eqb seen l) <-> In x l /\ ~ In x seen.
Proof.
  induction l as [|y t IH]; intros seen x; cbn [unique_from].
  - simpl. tauto.
  - destruct (existsb (String.eqb y) seen) eqn:E.
    + apply existsb_eqb_in in E. rewrite IH. simpl. split.
      * tauto.
      * intros [[->|H] Hn]; [contradiction | tauto].
    + assert (Hy : ~ In y seen).
      { intros H. apply existsb_eqb_in in H. congruence. }
      simpl. rewrite IH. simpl. split.
      * intros [->|[H Hn]]; [tauto|]. split; [tauto|]. intros Hs. apply Hn. now right.
      * intros [[->|H] Hn]; [now left|].
        destruct (string_dec y x) as [->|Hne]; [now left|].
        right. split; [exact H|]. intros [E'|Hs]; [congruence | contradiction].
Qed.

Lemma unique_from_nodup l : forall seen, NoDup (unique_from String.eqb seen l).
Proof.
  induction l as [|y t IH]; intros seen; cbn [unique_from]; [constructor|].
  destruct (existsb (String.eqb y) seen); [apply IH|].
  constructor; [|apply IH].
  rewrite in_unique_from. simpl. tauto.
Qed.

Lemma insert_to_front x l :
  match l with
  | [] => True
  | y :: _ => len x <= len y
  end ->
  insert_by_len x l = x :: l.
Proof.
  destruct l as [|y t]; [reflexivity|]. simpl. intros H.
  apply Nat.leb_le in H. now rewrite H.
Qed.

(** An ascending list is left as it is. *)
Lemma sorted_by_len_fixpoint l :
  StronglySorted shorter_or_equal l -> sorted_by_len l = l.
Proof.
  induction 1 as [|x t Ht IH Hx]; [reflexivity|].
  cbn [sorted_by_len]. rewrite IH. apply insert_to_front.
  destruct t as [|y t']; [exact I|]. now inversion Hx.
Qed.

Lemma reduction_methods_order_spec df order :
  reduction_methods_order df = Ok order ->
  df <> []
  /\ NoDup order
  /\ forall v, In v order <-> exists r, In r df /\ Reduction_Method r = v.
Proof.
  unfold reduction_methods_order, unique.
  destruct df as [|r t]; [discriminate|].
  cbn [map unique_from existsb pin_first_sort_rest].
  intros H. injection H as <-.
  pose proof (unique_from_nodup (map Reduction_Method (r :: t)) []) as Hnd.
  cbn [map unique_from existsb] in Hnd.
  split; [discriminate|]. split.
  - inversion Hnd as [|? ? Hx Hrest]; subst. constructor.
    + intros H. apply Hx.
      eapply Permutation_in; [apply sorted_by_len_perm | exact H].
    + eapply Permutation_NoDup; [symmetry; apply sorted_by_len_perm | exact Hrest].
  - intros v.
    assert (Hv : In v (Reduction_Method r
                       :: sorted_by_len (unique_from String.eqb [Reduction_Method r]
                                                     (map Reduction_Method t)))
                 <-> In v (unique_from String.eqb [] (map Reduction_Method (r :: t)))).
    { cbn [map unique_from existsb]. simpl. split; intros [H|H]; auto; right.
      - eapply Permutation_in; [apply sorted_by_len_perm | exact H].
      - eapply Permutation_in; [symmetry; apply sorted_by_len_perm | exact H]. }
    rewrite Hv, in_unique_from, in_map_iff. simpl. split.
    + intros [(r' & E & H) _]. eauto.
    + intros (r' & H & E). split; [eauto | tauto].
Qed.

(** X1. The ordering of a frame without rows raises [IndexError]; the
    ordering of any other frame names every variant of the frame exactly
    once and nothing else. *)
Theorem X1_ordering_covers_the_variants :
  forall df : Table,
    match reduction_methods_order df with
    | Err e => df = [] /\ e = IndexError
    | Ok order =>
        df <> []
        /\ NoDup order
        /\ forall v, In v order <-> exists r, In r df /\ Reduction_Method r = v
    end.
Proof.
  intros df. destruct (reduction_methods_order df) as [order|e] eqn:E.
  - now apply reduction_methods_order_spec.
  - destruct df as [|r t].
    + split; [reflexivity|]. now injection E.
    + destruct (reduction_methods_order_cons r t) as [order H]. congruence.
Qed.

(** X2. Ordering a list of names that is already in display order changes
    nothing: the ordering is a normal form. *)
Theorem X2_ordering_is_idempotent :
  forall (l ordered : list string),
    pin_first_sort_rest l = Ok ordered ->
    pin_first_sort_rest ordered = Ok ordered.
Proof.
  intros [|first rest] ordered H; [discriminate|].
  injection H as <-. cbn [pin_first_sort_rest].
  now rewrite (sorted_by_len_fixpoint _ (sorted_by_len_sorted rest)).
Qed.

(** ** The two filters *)

Lemma filter_swap {A} (f g : A -> bool) l :
  filter f (filter g l) = filter g (filter f l).
Proof.
  induction l as [|x t IH]; [reflexivity|]. simpl.
  destruct (f x) eqn:Ef, (g x) eqn:Eg; simpl; rewrite ?Ef, ?Eg, IH; reflexivity.
Qed.

Lemma filter_twice {A} (f : A -> bool) l : filter f (filter f l) = filter f l.
Proof.
  induction l as [|x t IH]; [reflexivity|]. simpl.
  destruct (f x) eqn:Ef; simpl; rewrite ?Ef, IH; reflexivity.
Qed.

(** X11. The two filter statements of the combining notebook can be swapped,
    filtering twice is filtering once, and a frame that went through the
    diagnostic filter of an experiment notebook before is filtered to the
    same rows as the frame itself. *)
Theorem X11_filters_commute_and_are_idempotent :
  forall df : Table,
    drop_weighted (query_not_diagnostic df) = query_not_diagnostic (drop_weighted df)
    /\ filter_results (filter_results df) = filter_results df
    /\ filter_results (query_not_diagnostic df) = filter_results df.
Proof.
  intros df. unfold filter_results, drop_weighted, query_not_diagnostic.
  split; [apply filter_swap|]. split.
  - rewrite (filter_swap not_diagnostic not_weighted (filter not_diagnostic df)).
    now rewrite !filter_twice.
  - now rewrite filter_twice.
Qed.

(** ** Directory listings *)

Lemma existsb_path_in p ps : existsb (path_eqb p) ps = true <-> In p ps.
Proof.
  rewrite existsb_exists. split.
  - intros (q & Hq & E). apply path_eqb_eq in E. now subst.
  - intros H. exists p. split; [exact H | apply path_eqb_refl].
Qed.

Lemma lookup_none p fs : lookup_file p fs = None <-> ~ In p (paths fs).
Proof.
  induction fs as [|[q f] t IH]; simpl; [tauto|].
  destruct (path_eqb p q) eqn:E.
  - apply path_eqb_eq in E. subst. split; [discriminate | tauto].
  - rewrite IH. split; [|tauto]. intros H [->|H']; [|tauto].
    rewrite path_eqb_refl in E. discriminate.
Qed.

(** Writing keeps the listing and puts a new path at its end. *)
Lemma paths_write_file p f fs :
  paths (write_file p f fs)
  = if existsb (path_eqb p) (paths fs) then paths fs else paths fs ++ [p].
Proof.
  unfold paths. induction fs as [|[q g] t IH]; [reflexivity|]. simpl.
  destruct (path_eqb p q) eqn:E; simpl; [reflexivity|].
  rewrite IH. now destruct (existsb (path_eqb p) (map fst t)).
Qed.

Lemma write_file_nodup p f fs : NoDup (paths fs) -> NoDup (paths (write_file p f fs)).
Proof.
  intros H. rewrite paths_write_file.
  destruct (existsb (path_eqb p) (paths fs)) eqn:E; [exact H|].
  apply NoDup_app; [exact H | repeat constructor; intros [] |].
  intros q Hq [<-|[]]. apply existsb_path_in in Hq. congruence.
Qed.

Lemma write_all_nodup outputs : forall fs,
  NoDup (paths fs) -> NoDup (paths (write_all outputs fs)).
Proof.
  induction outputs as [|[p f] t IH]; intros fs H; [exact H|].
  cbn [write_all fold_left fst snd]. apply IH. now apply write_file_nodup.
Qed.

Lemma lookup_rev_none q (outputs : list (Path * File)) :
  ~ In q (paths outputs) -> lookup_file q (rev outputs) = None.
Proof.
  intros H. apply lookup_none. unfold paths. rewrite map_rev, <- in_rev. exact H.
Qed.

Lemma lookup_write_all_elsewhere q outputs fs :
  ~ In q (paths outputs) ->
  lookup_file q (write_all outputs fs) = lookup_file q fs.
Proof.
  intros H. now rewrite lookup_write_all, lookup_rev_none.
Qed.

Lemma results_files_paths fs :
  results_files fs = filter (fun p => (path_name p =? "results.csv")%string) (paths fs).
Proof.
  unfold results_files, paths.
  induction fs as [|[p f] t IH]; [reflexivity|]. simpl.
  destruct (path_name p =? "results.csv")%string; simpl; now rewrite IH.
Qed.

Lemma results_files_write_other p f fs :
  path_name p <> "results.csv" -> results_files (write_file p f fs) = results_files fs.
Proof.
  intros H. rewrite !results_files_paths, paths_write_file.
  destruct (existsb (path_eqb p) (paths fs)); [reflexivity|].
  rewrite filter_app. simpl.
  destruct (String.eqb_spec (path_name p) "results.csv"); [contradiction|].
  apply app_nil_r.
Qed.

Lemma results_files_write_all_other outputs : forall fs,
  (forall p, In p (paths outputs) -> path_name p <> "results.csv") ->
  results_files (write_all outputs fs) = results_files fs.
Proof.
  induction outputs as [|[p f] t IH]; intros fs H; [reflexivity|].
  cbn [write_all fold_left fst snd]. fold (write_all t (write_file p f fs)).
  rewrite IH.
  - apply results_files_write_other. apply H. now left.
  - intros q Hq. apply H. now right.
Qed.

(** ** Runs of the experiment notebooks as lists of writes *)

Lemma run_experiment_run x df1 df2 w :
  run_experiment x df1 df2 w
  = match reduction_methods_order df1 with
    | Err e => (Err e, w)
    | Ok order =>
        (Ok tt,
         mkWorld (write_all (experiment_outputs x df1 df2 order) (files w))
                 (plot_calls w ++ calls_of (experiment_outputs x df1 df2 order)))
    end.
Proof.
  destruct x; cbn [run_experiment];
    unfold deit_rvl_cdip, distilbert_imdb, resnet56_cifar10, lightgbm_sorel20m;
    rewrite ?save_and_plot_run, ?random_forest_run;
    destruct (reduction_methods_order df1); reflexivity.
Qed.

Lemma experiment_output_paths x df1 df2 order p :
  In p (paths (experiment_outputs x df1 df2 order)) ->
  exists name, p = OUTPUT_DIR // experiment_dir x // name
               /\ (p = results_csv x \/ path_name p <> "results.csv").
Proof.
  destruct x; simpl; intros H;
    repeat (destruct H as [<-|H];
            [eexists; split; [reflexivity|];
             first [left; reflexivity | right; discriminate]|]);
    contradiction.
Qed.

(** X3. An experiment notebook whose evaluation returned no result raises
    [IndexError] in the ordering cell, before anything is saved or plotted;
    in the random forest notebook the balanced frame alone decides, whatever
    the imbalanced evaluation returned.  With at least one result the cells
    run to the end. *)
Theorem X3_experiment_without_results_saves_nothing :
  forall (x : Experiment) (df2 : Table) (w : World),
    run_experiment x [] df2 w = (Err IndexError, w)
    /\ forall r df1, fst (run_experiment x (r :: df1) df2 w) = Ok tt.
Proof.
  intros x df2 w. split.
  - now rewrite run_experiment_run.
  - intros r df1. rewrite run_experiment_run.
    destruct (reduction_methods_order_cons r df1) as [order ->]. reflexivity.
Qed.

(** X4. The cells of an experiment notebook from the ordering on, whether
    they run to the end or raise, leave every file below the output
    directory that is outside the notebook's own directory as it was. *)
Theorem X4_experiment_stays_in_its_directory :
  forall (x : Experiment) (df1 df2 : Table) (w : World) (q : Path),
    (forall name, q <> OUTPUT_DIR // experiment_dir x // name) ->
    lookup_file q (files (snd (run_experiment x df1 df2 w)))
    = lookup_file q (files w).
Proof.
  intros x df1 df2 w q Hq. rewrite run_experiment_run.
  destruct (reduction_methods_order df1) as [order|e]; cbn [snd files];
    [|reflexivity].
  apply lookup_write_all_elsewhere. intros Hin.
  apply experiment_output_paths in Hin. destruct Hin as (name & -> & _).
  now apply (Hq name).
Qed.

Lemma rmap_ext_in {A B} (f g : A -> result B) l :
  (forall x, In x l -> f x = g x) -> rmap f l = rmap g l.
Proof.
  induction l as [|a t IH]; intros H; [reflexivity|].
  cbn [rmap]. rewrite (H a (or_introl eq_refl)), IH; [reflexivity|].
  intros x Hx. apply H. now right.
Qed.

Lemma in_results_files q fs :
  In q (results_files fs) -> In q (paths fs) /\ path_name q = "results.csv".
Proof.
  rewrite results_files_paths, filter_In, String.eqb_eq. tauto.
Qed.

(** ** Runs of the combining notebook, again *)

(** The writes of the cells "Plots" and "Tables": the plots first, then
    summary tables only, as many as were computed. *)
Lemma combined_outputs_shape absolute relative df :
  exists tables,
    snd (combined_outputs absolute relative df) = plots_of_frame df ++ tables
    /\ (forall p, In p (paths tables) -> In p summary_paths)
    /\ calls_of tables = [].
Proof.
  unfold combined_outputs, plots_of_frame.
  destruct (reduction_methods_order df) as [order|e];
    [|exists []; now repeat split].
  destruct (absolute (metric_is "ECE" df) order) as [s1|e];
    [|exists []; cbn [snd]; rewrite app_nil_r; now repeat split].
  destruct (relative (metric_is "ECE" df) order) as [s2|e];
    [|eexists; cbn [snd]; split; [reflexivity|]; split; [|reflexivity];
      simpl; intros p H; tauto].
  destruct (absolute (metric_is "cwECE" df) order) as [s3|e];
    [|eexists; cbn [snd]; split; [reflexivity|]; split; [|reflexivity];
      simpl; intros p H; tauto].
  destruct (relative (metric_is "cwECE" df) order) as [s4|e];
    eexists; cbn [snd]; (split; [reflexivity|]); (split; [|reflexivity]);
    simpl; intros p H; tauto.
Qed.

Lemma plots_of_frame_paths df p :
  In p (paths (plots_of_frame df)) -> In p combined_plot_paths.
Proof.
  unfold plots_of_frame. destruct (reduction_methods_order df); [|contradiction].
  simpl. tauto.
Qed.

Lemma combined_paths_are_not_results p :
  In p combined_plot_paths \/ In p summary_paths -> path_name p <> "results.csv".
Proof.
  simpl. intros [H|H];
    repeat (destruct H as [<-|H]; [discriminate|]); contradiction.
Qed.

Lemma combined_output_names absolute relative df p :
  In p (paths (snd (combined_outputs absolute relative df))) ->
  path_name p <> "results.csv".
Proof.
  destruct (combined_outputs_shape absolute relative df) as (tables & -> & Ht & _).
  unfold paths. rewrite map_app, in_app_iff. intros [H|H].
  - apply combined_paths_are_not_results. left. now apply (plots_of_frame_paths df).
  - apply combined_paths_are_not_results. right. now apply Ht.
Qed.

Lemma calls_of_app a b : calls_of (a ++ b) = calls_of a ++ calls_of b.
Proof. unfold calls_of. apply flat_map_app. Qed.

(** X6. Without any [results.csv] below the output directory the combining
    notebook raises [ValueError] at the concatenation and writes nothing. *)
Theorem X6_no_results_file_nothing_written :
  forall (absolute relative : SummaryFunction) (w : World),
    (forall p, In p (map fst (files w)) -> path_name p <> "results.csv") ->
    combine_results absolute relative w = (Err ValueError, w).
Proof.
  intros absolute relative w H. rewrite combine_results_run, load_all_results_run.
  assert (E : results_files (files w) = []).
  { rewrite results_files_paths.
    destruct (filter _ (paths (files w))) as [|p t] eqn:Ef; [reflexivity|].
    assert (Hp : In p (p :: t)) by now left.
    rewrite <- Ef in Hp. apply filter_In in Hp. destruct Hp as [Hin Hn].
    apply String.eqb_eq in Hn. now apply H in Hin. }
  now rewrite E.
Qed.

(** X7. When the filter leaves no row, because every row that was loaded is
    a diagnostic row or a row of a weighted variant, the combining notebook
    raises [IndexError] in the ordering cell and writes nothing. *)
Theorem X7_all_rows_filtered_nothing_written :
  forall (absolute relative : SummaryFunction) (w : World) (df : Table),
    fst (load_all_results w) = Ok df ->
    (forall r, In r df ->
               (Metric r = "condition" \/ Metric r = "weak_condition")
               \/ occurs_in_any_case "weighted" (Reduction_Method r)) ->
    combine_results absolute relative w = (Err IndexError, w).
Proof.
  intros absolute relative w df Hload Hall.
  rewrite combine_results_run, Hload.
  assert (E : filter_results df = []).
  { rewrite filter_results_kept.
    destruct (filter kept df) as [|r t] eqn:Ef; [reflexivity|].
    assert (Hr : In r (r :: t)) by now left.
    rewrite <- Ef in Hr. apply filter_In in Hr. destruct Hr as [Hin Hk].
    apply kept_spec in Hk. apply Hall in Hin.
    unfold is_diagnostic, is_weighted in Hk. tauto. }
  rewrite E. cbv zeta. unfold combined_outputs. cbn.
  destruct w. cbn. now rewrite app_nil_r.
Qed.

(** The combining notebook writes no file named [results.csv]. *)
Lemma combine_results_writes absolute relative w :
  exists outputs,
    files (snd (combine_results absolute relative w)) = write_all outputs (files w)
    /\ forall p, In p (paths outputs) -> path_name p <> "results.csv".
Proof.
  rewrite combine_results_run.
  destruct (fst (load_all_results w)) as [df|e].
  - eexists. split; [reflexivity|]. apply combined_output_names.
  - exists []. split; [reflexivity | contradiction].
Qed.

Lemma combine_results_inputs absolute relative w :
  let w' := snd (combine_results absolute relative w) in
  results_files (files w') = results_files (files w)
  /\ (forall p, path_name p = "results.csv" ->
                lookup_file p (files w') = lookup_file p (files w))
  /\ fst (load_all_results w') = fst (load_all_results w).
Proof.
  intros w'.
  destruct (combine_results_writes absolute relative w) as (outputs & Hw' & Hnames).
  fold w' in Hw'.
  assert (H1 : results_files (files w') = results_files (files w)).
  { rewrite Hw'. now apply results_files_write_all_other. }
  assert (H2 : forall p, path_name p = "results.csv" ->
                         lookup_file p (files w') = lookup_file p (files w)).
  { intros p Hp. rewrite Hw'. apply lookup_write_all_elsewhere.
    intros Hin. now apply Hnames in Hin. }
  split; [exact H1|]. split; [exact H2|].
  rewrite !load_all_results_run. cbn [fst]. rewrite H1. f_equal.
  apply rmap_ext_in. intros q Hq. apply in_results_files in Hq.
  now rewrite H2.
Qed.

(** X8. The combining notebook, however it ends, leaves every [results.csv]
    as it was and adds none, so that its loading cell reads the same frame
    after the run as before. *)
Theorem X8_combining_leaves_the_results_files :
  forall (absolute relative : SummaryFunction) (w : World),
    let w' := snd (combine_results absolute relative w) in
    map fst (filter (fun pf => path_name (fst pf) =? "results.csv") (files w'))
    = map fst (filter (fun pf => path_name (fst pf) =? "results.csv") (files w))
    /\ (forall p, path_name p = "results.csv" ->
                  lookup_file p (files w') = lookup_file p (files w))
    /\ fst (load_all_results w') = fst (load_all_results w).
Proof.
  intros absolute relative w. apply combine_results_inputs.
Qed.

(** Two listings of the same paths, none twice, with the same file at every
    path are the same listing. *)
Lemma listing_ext a : forall b,
  NoDup (paths a) -> paths a = paths b ->
  (forall p, lookup_file p a = lookup_file p b) -> a = b.
Proof.
  induction a as [|[p f] a' IH]; intros [|[q g] b'] Hnd Hp Hl;
    try discriminate; [reflexivity|].
  simpl in Hp. injection Hp as -> Hp'.
  inversion Hnd as [|? ? Hq Hnd']; subst.
  pose proof (Hl q) as Hlq. simpl in Hlq. rewrite path_eqb_refl in Hlq.
  injection Hlq as ->. f_equal. apply IH; [exact Hnd' | exact Hp' |].
  intros p. destruct (path_eqb p q) eqn:E.
  - apply path_eqb_eq in E. subst p.
    assert (H1 : lookup_file q a' = None) by now apply lookup_none.
    assert (H2 : lookup_file q b' = None)
      by (apply lookup_none; unfold paths in *; now rewrite <- Hp').
    congruence.
  - specialize (Hl p). simpl in Hl. now rewrite E in Hl.
Qed.

Lemma paths_write_all_existing outputs : forall fs,
  (forall p, In p (paths outputs) -> In p (paths fs)) ->
  paths (write_all outputs fs) = paths fs.
Proof.
  induction outputs as [|[p f] t IH]; intros fs H; [reflexivity|].
  cbn [write_all fold_left fst snd]. fold (write_all t (write_file p f fs)).
  assert (Hp : paths (write_file p f fs) = paths fs).
  { rewrite paths_write_file.
    destruct (existsb (path_eqb p) (paths fs)) eqn:E; [reflexivity|].
    assert (In p (paths fs)) as Hin by (apply H; now left).
    apply existsb_path_in in Hin. congruence. }
  rewrite IH; [exact Hp|]. intros q Hq. rewrite Hp. apply H. now right.
Qed.

Lemma paths_after_write_all outputs fs p :
  In p (paths outputs) -> In p (paths (write_all outputs fs)).
Proof.
  intros H. destruct (lookup_file p (write_all outputs fs)) eqn:E.
  - destruct (in_dec (list_eq_dec string_dec) p (paths (write_all outputs fs)));
      [assumption|].
    apply lookup_none in n. congruence.
  - rewrite lookup_write_all in E.
    destruct (lookup_file p (rev outputs)) eqn:Er; [discriminate|].
    apply lookup_none in Er. exfalso. apply Er.
    unfold paths in *. rewrite map_rev, <- in_rev. exact H.
Qed.

(** Writing the same files a second time changes nothing. *)
Lemma write_all_twice outputs fs :
  NoDup (paths fs) ->
  write_all outputs (write_all outputs fs) = write_all outputs fs.
Proof.
  intros Hnd. apply listing_ext.
  - now apply write_all_nodup, write_all_nodup.
  - apply paths_write_all_existing. intros p. apply paths_after_write_all.
  - intros p. rewrite !lookup_write_all.
    now destruct (lookup_file p (rev outputs)).
Qed.

(** X9. Running the combining notebook a second time ends as the first run
    ended and leaves every file as the first run left it: what the notebook
    writes is not among what it reads. *)
Theorem X9_combining_twice_changes_nothing :
  forall (absolute relative : SummaryFunction) (w : World),
    NoDup (map fst (files w)) ->
    let w1 := snd (combine_results absolute relative w) in
    fst (combine_results absolute relative w1)
    = fst (combine_results absolute relative w)
    /\ files (snd (combine_results absolute relative w1)) = files w1.
Proof.
  intros absolute relative w Hnd w1.
  destruct (combine_results_inputs absolute relative w) as (_ & _ & Hload).
  fold w1 in Hload.
  rewrite (combine_results_run absolute relative w1), Hload.
  assert (Hw1 : w1 = snd (combine_results absolute relative w)) by reflexivity.
  rewrite combine_results_run in Hw1 |- *.
  destruct (fst (load_all_results w)) as [df|e]; cbn [fst snd] in *.
  - cbv zeta in *. cbn [fst snd files]. split; [reflexivity|].
    rewrite Hw1. cbn [files]. now apply write_all_twice.
  - now rewrite Hw1.
Qed.

Lemma lookup_rev_plots_tables q (plots tables : list (Path * File)) :
  ~ In q (paths tables) ->
  lookup_file q (rev (plots ++ tables)) = lookup_file q (rev plots).
Proof.
  intros H. rewrite rev_app_distr, lookup_app.
  now rewrite (lookup_rev_none q tables H).
Qed.

(** X10. The plotting calls of the combining notebook and every file but
    the four summary tables are the same whatever the two summary helpers
    return, also when one of them raises: the plots are made before the
    tables. *)
Theorem X10_plots_do_not_depend_on_the_summary_helpers :
  forall (absolute relative absolute' relative' : SummaryFunction) (w : World),
    plot_calls (snd (combine_results absolute relative w))
    = plot_calls (snd (combine_results absolute' relative' w))
    /\ forall q,
        ~ In q [ OUTPUT_DIR // "combined_results" // "ece_results_summary_absolute.csv";
                 OUTPUT_DIR // "combined_results" // "ece_results_summary_relative.csv";
                 OUTPUT_DIR // "combined_results" // "cwece_results_summary_absolute.csv";
                 OUTPUT_DIR // "combined_results" // "cwece_results_summary_relative.csv" ] ->
        lookup_file q (files (snd (combine_results absolute relative w)))
        = lookup_file q (files (snd (combine_results absolute' relative' w))).
Proof.
  intros absolute relative absolute' relative' w.
  rewrite !combine_results_run.
  destruct (fst (load_all_results w)) as [df|e]; [|split; reflexivity].
  cbv zeta. cbn [snd files plot_calls].
  destruct (combined_outputs_shape absolute relative (filter_results df))
    as (t1 & -> & Hp1 & Hc1).
  destruct (combined_outputs_shape absolute' relative' (filter_results df))
    as (t2 & -> & Hp2 & Hc2).
  split.
  - now rewrite !calls_of_app, Hc1, Hc2.
  - intros q Hq. rewrite !lookup_write_all.
    rewrite !lookup_rev_plots_tables; [reflexivity| |];
      intros H; apply Hq; [now apply Hp2 | now apply Hp1].
Qed.

(** X12. Every plotting call of the combining notebook writes one of its
    five plot files, has a hue order without any weighted variant, and gets
    rows that are neither diagnostic nor of a weighted variant and whose
    variant is in the hue order. *)
Theorem X12_combined_plots_show_kept_rows_only :
  forall (absolute relative : SummaryFunction) (w : World),
    exists new_calls,
      plot_calls (snd (combine_results absolute relative w))
      = plot_calls w ++ new_calls
      /\ forall c,
          In c new_calls ->
          In (plot_output_file c)
             [ OUTPUT_DIR // "combined_results" // "evaluation_ECE_rf_balanced.eps";
               OUTPUT_DIR // "combined_results" // "evaluation_ECE_rf_imbalanced.eps";
               OUTPUT_DIR // "combined_results" // "evaluation_ECE_rf_temperature_scaling.eps";
               OUTPUT_DIR // "combined_results" // "evaluation_ECE_multiple.eps";
               OUTPUT_DIR // "combined_results" // "evaluation_cwECE_multiple.eps" ]
          /\ (forall v, In v (plot_hue_order c) ->
                        ~ occurs_in_any_case "weighted" v)
          /\ (forall r, In r (plot_df c) ->
                        Metric r <> "condition" /\ Metric r <> "weak_condition"
                        /\ ~ occurs_in_any_case "weighted" (Reduction_Method r)
                        /\ In (Reduction_Method r) (plot_hue_order c)).
Proof.
  intros absolute relative w. rewrite combine_results_run.
  destruct (fst (load_all_results w)) as [df|e];
    [|exists []; cbn [snd]; split; [now rewrite app_nil_r | contradiction]].
  cbv zeta. cbn [snd plot_calls].
  destruct (combined_outputs_shape absolute relative (filter_results df))
    as (tables & -> & _ & Hc).
  rewrite calls_of_app, Hc, app_nil_r.
  eexists. split; [reflexivity|].
  unfold plots_of_frame.
  destruct (reduction_methods_order (filter_results df)) as [order|e] eqn:Eo;
    [|contradiction].
  apply reduction_methods_order_spec in Eo. destruct Eo as (_ & _ & Hv).
  assert (Hkept : forall r, In r (filter_results df) ->
                            Metric r <> "condition" /\ Metric r <> "weak_condition"
                            /\ ~ occurs_in_any_case "weighted" (Reduction_Method r)
                            /\ In (Reduction_Method r) order).
  { intros r Hr. pose proof Hr as Hr'.
    rewrite filter_results_kept in Hr. apply filter_In in Hr.
    destruct Hr as [_ Hk]. apply kept_spec in Hk.
    unfold is_diagnostic, is_weighted in Hk.
    repeat split; try tauto. apply Hv. eauto. }
  intros c Hc'. simpl in Hc'.
  repeat (destruct Hc' as [<-|Hc'];
          [cbn [plot_output_file plot_hue_order plot_df];
           split; [simpl; tauto|]; split;
           [intros v Hin; apply Hv in Hin; destruct Hin as (r & Hr & <-);
            now apply Hkept
           |intros r Hr; apply filter_In in Hr; now apply Hkept]|]).
  contradiction.
Qed.

(** ** The plots of the random forest notebook *)

Lemma in_rf_balanced_slice df r :
  In r (rf_balanced_slice df)
  <-> In r df /\ ~ is_diagnostic r /\ Dataset r = "Synthetic Balanced"
      /\ Calibration_Method r <> "TemperatureScaling".
Proof.
  unfold rf_balanced_slice, query_not_diagnostic, is_diagnostic.
  rewrite !filter_In, andb_true_iff, negb_true_iff, not_diagnostic_spec, String.eqb_eq.
  destruct (String.eqb_spec (Calibration_Method r) "TemperatureScaling");
    intuition congruence.
Qed.

Lemma in_rf_imbalanced_slice df r :
  In r (rf_imbalanced_slice df)
  <-> In r df /\ ~ is_diagnostic r /\ Dataset r = "Synthetic Imbalanced"
      /\ Calibration_Method r <> "TemperatureScaling".
Proof.
  unfold rf_imbalanced_slice, query_not_diagnostic, is_diagnostic.
  rewrite !filter_In, andb_true_iff, negb_true_iff, not_diagnostic_spec, String.eqb_eq.
  destruct (String.eqb_spec (Calibration_Method r) "TemperatureScaling");
    intuition congruence.
Qed.

Lemma in_rf_temperature_slice df r :
  In r (rf_temperature_slice df)
  <-> In r df /\ ~ is_diagnostic r /\ Calibration_Method r = "TemperatureScaling".
Proof.
  unfold rf_temperature_slice, query_not_diagnostic, is_diagnostic.
  rewrite !filter_In, not_diagnostic_spec, String.eqb_eq. tauto.
Qed.

(** X13. In a completed run of the random forest notebook every row of the
    two datasets that is not diagnostic goes to exactly one of the three
    plotting calls; a row of the first call, the chart of the balanced
    dataset, is in no plot file the run leaves behind. *)
Theorem X13_rf_rows_go_to_one_plotting_call :
  forall (df1 df2 : Table) (w : World) (r : Row),
    fst (random_forest_synthetic df1 df2 w) = Ok tt ->
    In r (df1 ++ df2) ->
    Metric r <> "condition" ->
    Metric r <> "weak_condition" ->
    Dataset r = "Synthetic Balanced" \/ Dataset r = "Synthetic Imbalanced" ->
    let w' := snd (random_forest_synthetic df1 df2 w) in
    exists c1 c2 c3,
      plot_calls w' = plot_calls w ++ [c1; c2; c3]
      /\ (In r (plot_df c1) /\ ~ In r (plot_df c2) /\ ~ In r (plot_df c3)
          \/ ~ In r (plot_df c1) /\ In r (plot_df c2) /\ ~ In r (plot_df c3)
          \/ ~ In r (plot_df c1) /\ ~ In r (plot_df c2) /\ In r (plot_df c3))
      /\ (In r (plot_df c1) ->
          forall q df hue_order,
            lookup_file q (files w') = Some (PlotFile df hue_order) ->
            lookup_file q (files w) = Some (PlotFile df hue_order) \/ ~ In r df).
Proof.
  intros df1 df2 w r. rewrite random_forest_run.
  destruct (reduction_methods_order df1) as [order|e]; [|discriminate].
  cbv zeta. cbn [fst snd files plot_calls].
  intros _ Hin Hc Hw Hd.
  assert (Hnd : ~ is_diagnostic r) by (unfold is_diagnostic; tauto).
  do 3 eexists. split; [reflexivity|]. cbn [plot_df].
  rewrite in_rf_balanced_slice, in_rf_imbalanced_slice, in_rf_temperature_slice.
  split.
  - destruct (string_dec (Calibration_Method r) "TemperatureScaling") as [E|E].
    + right. right. tauto.
    + destruct Hd as [Hd|Hd]; rewrite Hd.
      * left. repeat split; auto; intros (_ & _ & H & _) || intros (_ & _ & H);
          congruence.
      * right. left. repeat split; auto; intros (_ & _ & H & _) || intros (_ & _ & H);
          congruence.
  - intros (_ & _ & Hbal & Hts) q df hue_order. rewrite !lookup_write.
    destruct (path_eqb q _).
    + intros H. injection H as <- _. right.
      rewrite in_rf_temperature_slice. tauto.
    + destruct (path_eqb q _).
      * intros H. injection H as <- _. right.
        rewrite in_rf_imbalanced_slice. intros (_ & _ & H & _). congruence.
      * destruct (path_eqb q _); [discriminate | tauto].
Qed.

(** ** The class probabilities of the LightGBM notebook *)

Lemma predict_proba_rows {X : Type} (model_predict : X -> list Q) (x : X) :
  predict_proba model_predict x
  = map (fun p => [(1 - p)%Q; p]) (model_predict x).
Proof.
  unfold predict_proba, np_append_axis1, np_zeros_like.
  induction (model_predict x) as [|p t IH]; [reflexivity|].
  cbn [map combine fst snd app set_first_to_complement nth]. now rewrite <- IH.
Qed.

Lemma argmax_pair (a b : Q) : argmax [a; b] = if Qle_bool b a then 0 else 1.
Proof. reflexivity. Qed.

(** X14. The class probabilities the LightGBM notebook computes have one row
    per prediction, with the two entries [1 - p] and [p] for a prediction
    [p]: two entries that add up to one and lie between 0 and 1 when [p]
    does; the predicted class is 1 exactly when [p] is above one half. *)
Theorem X14_booster_probabilities_are_complementary :
  forall (X : Type) (model_predict : X -> list Q) (x : X) (i : nat) (p : Q),
    nth_error (model_predict x) i = Some p ->
    exists row,
      nth_error (predict_proba model_predict x) i = Some row
      /\ length (predict_proba model_predict x) = length (model_predict x)
      /\ length row = 2
      /\ nth 1 row 0%Q = p
      /\ (Qsum row == 1)%Q
      /\ ((0 <= p)%Q /\ (p <= 1)%Q ->
          Forall (fun c => (0 <= c)%Q /\ (c <= 1)%Q) row)
      /\ (nth_error (y_pred model_predict x) i = Some 1 <-> (1 # 2 < p)%Q)
      /\ (nth_error (y_pred model_predict x) i = Some 0 <-> (p <= 1 # 2)%Q).
Proof.
  intros X model_predict x i p Hp.
  exists [(1 - p)%Q; p]. unfold y_pred. rewrite predict_proba_rows.
  rewrite !length_map, map_map.
  rewrite !nth_error_map, Hp. cbn [option_map].
  split; [reflexivity|]. split; [reflexivity|]. split; [reflexivity|].
  split; [reflexivity|]. split; [unfold Qsum; simpl; ring|].
  split.
  - intros [H0 H1]. repeat constructor; unfold Qminus; try assumption.
    + rewrite <- (Qplus_opp_r p). apply Qplus_le_l. exact H1.
    + setoid_replace 1%Q with (1 + - 0)%Q at 2 by ring.
      apply Qplus_le_r. apply Qopp_le_compat. exact H0.
  - rewrite argmax_pair.
    assert (Hhalf : (p <= 1 - p)%Q <-> (p <= 1 # 2)%Q).
    { split; intros H.
      - apply Qle_minus_iff in H. apply Qle_minus_iff.
        setoid_replace ((1 # 2) + - p)%Q with ((1 - p + - p) * (1 # 2))%Q by ring.
        apply Qmult_le_0_compat; [exact H | discriminate].
      - apply Qle_minus_iff in H. apply Qle_minus_iff.
        setoid_replace (1 - p + - p)%Q with (((1 # 2) + - p) * 2)%Q by ring.
        apply Qmult_le_0_compat; [exact H | discriminate]. }
    destruct (Qle_bool p (1 - p)) eqn:E.
    + apply Qle_bool_iff in E. apply Hhalf in E. split; split; intros H.
      * discriminate.
      * exfalso. apply (Qlt_not_le _ _ H E).
      * exact E.
      * reflexivity.
    + assert (Hn : ~ (p <= 1 # 2)%Q).
      { intros H. apply Hhalf in H. apply Qle_bool_iff in H. congruence. }
      split; split; intros H.
      * now apply Qnot_le_lt.
      * reflexivity.
      * discriminate.
      * contradiction.
Qed.

(** ** The first cells *)

Lemma load_name_bound name ns : In name ns -> load_name name ns = Ok tt.
Proof.
  intros H. unfold load_name.
  now rewrite (proj2 (existsb_eqb_in name ns) H).
Qed.

Lemma load_name_unbound name ns : ~ In name ns -> load_name name ns = Err (NameError name).
Proof.
  intros H. unfold load_name.
  destruct (existsb (String.eqb name) ns) eqn:E; [|reflexivity].
  apply existsb_eqb_in in E. contradiction.
Qed.

(** X15. The LightGBM notebook uses [Path] in its second code cell without
    importing it: started in a kernel that does not bind [Path] already, it
    raises [NameError] there, in whatever directory it runs.  The other
    notebooks import what the cell needs: it completes, and it puts the
    parent directory in front of the module path exactly when the notebook
    runs in a directory named [notebooks]. *)
Theorem X15_lightgbm_notebook_stops_at_unbound_name :
  forall (cwd : Path) (k : Kernel),
    (~ In "Path" (namespace k) ->
     first_cells (Experiment_of LightGBM) cwd k
     = Err (Raised "NameError: name 'Path' is not defined"))
    /\ forall n, n <> Experiment_of LightGBM ->
                 exists k',
                   first_cells n cwd k = Ok k'
                   /\ sys_path k'
                      = if path_name cwd =? "notebooks"
                        then removelast cwd :: sys_path k
                        else sys_path k.
Proof.
  intros cwd k. split.
  - intros H. unfold first_cells, module_path_cell. cbn [namespace].
    rewrite load_name_unbound; [reflexivity|].
    cbn [imported_names app]. simpl. intros Hin.
    repeat (destruct Hin as [Hin|Hin]; [discriminate|]). contradiction.
  - intros n Hn. unfold first_cells, module_path_cell. cbn [namespace sys_path].
    assert (Hall : forall name, In name ["Path"; "sys"; "os"] ->
                                In name (imported_names n ++ namespace k)).
    { intros name Hname. apply in_app_iff. left.
      destruct n as [|[]]; try congruence; simpl in Hname |- *; intuition. }
    rewrite load_name_bound by (apply Hall; simpl; tauto). cbn [rbind].
    destruct (path_name cwd =? "notebooks")%string.
    + rewrite !load_name_bound by (right; apply Hall; simpl; tauto).
      cbn [rbind]. eexists. split; reflexivity.
    + eexists. split; reflexivity.
Qed.

(** ** Dicts and their inversion *)

Section Dicts.

Context {K V : Type}.
Variable eqbK : K -> K -> bool.
Variable eqbV : V -> V -> bool.
Hypothesis eqbK_eq : forall a b, eqbK a b = true <-> a = b.
Hypothesis eqbV_eq : forall a b, eqbV a b = true <-> a = b.

Lemma dict_get_in {A B} (eqb : A -> A -> bool)
  (eqb_eq : forall a b, eqb a b = true <-> a = b) (d : list (A * B)) k v :
  dict_get eqb k d = Some v -> In (k, v) d.
Proof.
  induction d as [|[k' v'] t IH]; simpl; [discriminate|].
  destruct (eqb k k') eqn:E.
  - apply eqb_eq in E. subst. intros H. injection H as ->. now left.
  - intros H. right. now apply IH.
Qed.

Lemma in_dict_get {A B} (eqb : A -> A -> bool)
  (eqb_eq : forall a b, eqb a b = true <-> a = b) (d : list (A * B)) k v :
  NoDup (map fst d) -> In (k, v) d -> dict_get eqb k d = Some v.
Proof.
  induction d as [|[k' v'] t IH]; simpl; [contradiction|].
  intros Hnd Hin. inversion Hnd as [|? ? Hk Hnd']; subst.
  destruct Hin as [E|Hin].
  - injection E as -> ->.
    assert (H : eqb k k = true) by now apply eqb_eq. now rewrite H.
  - destruct (eqb k k') eqn:E.
    + apply eqb_eq in E. subst. exfalso. apply Hk.
      apply in_map_iff. now exists (k', v).
    + now apply IH.
Qed.

Lemma dict_get_app {A B} (eqb : A -> A -> bool) (a b : list (A * B)) k :
  dict_get eqb k (a ++ b)
  = match dict_get eqb k a with
    | Some v => Some v
    | None => dict_get eqb k b
    end.
Proof.
  induction a as [|[k' v'] t IH]; simpl; [reflexivity|].
  now destruct (eqb k k').
Qed.

Lemma dict_get_set {A B} (eqb : A -> A -> bool)
  (eqb_eq : forall a b, eqb a b = true <-> a = b) (d : list (A * B)) k v q :
  dict_get eqb q (dict_set eqb k v d)
  = if eqb q k then Some v else dict_get eqb q d.
Proof.
  induction d as [|[k' v'] t IH]; simpl; [reflexivity|].
  destruct (eqb k k') eqn:E; simpl.
  - apply eqb_eq in E. subst. now destruct (eqb q k').
  - rewrite IH. destruct (eqb q k') eqn:E1; [|reflexivity].
    apply eqb_eq in E1. subst.
    destruct (eqb k' k) eqn:E2; [|reflexivity].
    apply eqb_eq in E2. subst.
    assert (H : eqb k k = true) by now apply eqb_eq. congruence.
Qed.

Lemma dict_set_keys {A B} (eqb : A -> A -> bool)
  (eqb_eq : forall a b, eqb a b = true <-> a = b) (d : list (A * B)) k v :
  NoDup (map fst d) -> NoDup (map fst (dict_set eqb k v d)).
Proof.
  induction d as [|[k' v'] t IH]; simpl; intros Hnd.
  - repeat constructor. intros [].
  - inversion Hnd as [|? ? Hk Hnd']; subst.
    destruct (eqb k k') eqn:E; simpl; [exact Hnd|].
    constructor; [|now apply IH].
    intros Hin. apply in_map_iff in Hin. destruct Hin as ([k0 v0] & E0 & Hin).
    simpl in E0. subst k0.
    assert (Hg : dict_get eqb k' (dict_set eqb k v t) = Some v0).
    { apply in_dict_get; [exact eqb_eq | now apply IH | exact Hin]. }
    rewrite dict_get_set in Hg by exact eqb_eq.
    destruct (eqb k' k) eqn:E1.
    + apply eqb_eq in E1. subst.
      assert (H : eqb k k = true) by now apply eqb_eq. congruence.
    + apply dict_get_in in Hg; [|exact eqb_eq].
      apply Hk. apply in_map_iff. now exists (k', v0).
Qed.

Lemma dict_of_fold {A B} (eqb : A -> A -> bool)
  (eqb_eq : forall a b, eqb a b = true <-> a = b) (items : list (A * B)) :
  forall d q,
    dict_get eqb q (fold_left (fun d kv => dict_set eqb (fst kv) (snd kv) d) items d)
    = match dict_get eqb q (rev items) with
      | Some v => Some v
      | None => dict_get eqb q d
      end.
Proof.
  induction items as [|[k v] t IH]; intros d q; [reflexivity|].
  cbn [fold_left fst snd rev]. rewrite IH, dict_get_app, dict_get_set by exact eqb_eq.
  destruct (dict_get eqb q (rev t)); [reflexivity|].
  simpl. now destruct (eqb q k).
Qed.

Lemma dict_of_keys {A B} (eqb : A -> A -> bool)
  (eqb_eq : forall a b, eqb a b = true <-> a = b) (items : list (A * B)) :
  NoDup (map fst (dict_of eqb items)).
Proof.
  unfold dict_of.
  assert (H : forall d, NoDup (map fst d) ->
                        NoDup (map fst (fold_left
                                          (fun d kv => dict_set eqb (fst kv) (snd kv) d)
                                          items d))).
  { induction items as [|[k v] t IH]; intros d Hd; [exact Hd|].
    cbn [fold_left fst snd]. apply IH. now apply dict_set_keys. }
  apply H. constructor.
Qed.

(** X16. In the dict that a comprehension [{v: k for k, v in d.items()}]
    makes of a dict [d], a value of [d] leads to a key of [d] that has this
    value; when no two keys of [d] have the same value, the inverted dict
    has an entry for every key of [d] and looking up goes both ways. *)
Theorem X16_inverted_dict_looks_up_backwards :
  forall (items : list (K * V)) (k : K) (v : V),
    let d := dict_of eqbK items in
    (dict_get eqbV v (dict_inverted eqbV d) = Some k -> dict_get eqbK k d = Some v)
    /\ (NoDup (map snd d) ->
        dict_get eqbK k d = Some v -> dict_get eqbV v (dict_inverted eqbV d) = Some k).
Proof.
  intros items k v d.
  pose proof (dict_of_keys eqbK eqbK_eq items) as Hkeys. fold d in Hkeys.
  assert (Hget : dict_get eqbV v (dict_inverted eqbV d)
                 = dict_get eqbV v (rev (map swap_item d))).
  { unfold dict_inverted, dict_of. rewrite dict_of_fold by exact eqbV_eq.
    now destruct (dict_get eqbV v (rev (map swap_item d))). }
  rewrite Hget. split.
  - intros H. apply dict_get_in in H; [|exact eqbV_eq].
    apply in_rev, in_map_iff in H. destruct H as ([k0 v0] & E & Hin).
    unfold swap_item in E. simpl in E. injection E as -> ->.
    now apply in_dict_get.
  - intros Hvals H. apply dict_get_in in H; [|exact eqbK_eq].
    apply in_dict_get; [exact eqbV_eq | |].
    + rewrite map_rev, map_map. unfold swap_item. simpl.
      apply NoDup_rev. exact Hvals.
    + apply -> in_rev. apply in_map_iff. now exists (k, v).
Qed.

End Dicts.

(** ** The label files of the DeiT notebook *)

Section LabelFileFacts.

Variable strip_split : string -> list string.
Variable int : string -> result Z.
Variable ImagePath : Type.
Variable images_dir_div : string -> ImagePath.
Variable is_file : ImagePath -> bool.
Variable open_image : ImagePath -> bool.

#[local] Abbreviation read_lines :=
  (read_label_lines strip_split int ImagePath images_dir_div is_file open_image).
#[local] Abbreviation read_files :=
  (read_label_files strip_split int ImagePath images_dir_div is_file open_image).
#[local] Abbreviation gives :=
  (line_gives strip_split int ImagePath images_dir_div is_file open_image).

Lemma read_label_lines_appends lines :
  forall images labels images' labels',
    read_lines lines images labels = Ok (images', labels') ->
    exists new_images new_labels,
      images' = images ++ new_images
      /\ labels' = labels ++ new_labels
      /\ Forall2 (fun image label => exists line, In line lines /\ gives line image label)
                 new_images new_labels.
Proof.
  induction lines as [|line rest IH]; intros images labels images' labels' H.
  - cbn [read_label_lines] in H. injection H as <- <-.
    exists [], []. rewrite !app_nil_r. repeat split. constructor.
  - cbn [read_label_lines] in H.
    destruct (strip_split line) as [|rel [|lab [|? ?]]] eqn:Es; try discriminate.
    destruct (is_file (images_dir_div rel)) eqn:Ef; cbn [negb] in H; [|discriminate].
    destruct (open_image (images_dir_div rel)) eqn:Eo; cbn [negb] in H.
    + destruct (int lab) as [n|e] eqn:En; [|discriminate]. cbn [rbind] in H.
      destruct (IH _ _ _ _ H) as (ni & nl & -> & -> & Hall).
      exists (images_dir_div rel :: ni), (n :: nl).
      rewrite <- !app_assoc. repeat split. constructor.
      * exists line. split; [now left|]. exists rel, lab. repeat split; assumption.
      * eapply Forall2_impl; [|exact Hall].
        intros i l (line' & Hin & Hg). exists line'. split; [now right | exact Hg].
    + destruct (IH _ _ _ _ H) as (ni & nl & -> & -> & Hall).
      exists ni, nl. repeat split.
      eapply Forall2_impl; [|exact Hall].
      intros i l (line' & Hin & Hg). exists line'. split; [now right | exact Hg].
Qed.

Lemma read_label_files_appends files_lines :
  forall images labels images' labels',
    read_files files_lines images labels = Ok (images', labels') ->
    exists new_images new_labels,
      images' = images ++ new_images
      /\ labels' = labels ++ new_labels
      /\ Forall2 (fun image label =>
                    exists line, In line (concat files_lines) /\ gives line image label)
                 new_images new_labels.
Proof.
  induction files_lines as [|lines rest IH]; intros images labels images' labels' H.
  - cbn [read_label_files] in H. injection H as <- <-.
    exists [], []. rewrite !app_nil_r. repeat split. constructor.
  - cbn [read_label_files] in H.
    destruct (read_lines lines images labels) as [[i1 l1]|e] eqn:E1; [|discriminate].
    cbn [rbind fst snd] in H.
    destruct (read_label_lines_appends _ _ _ _ _ E1) as (ni1 & nl1 & -> & -> & H1).
    destruct (IH _ _ _ _ H) as (ni2 & nl2 & -> & -> & H2).
    exists (ni1 ++ ni2), (nl1 ++ nl2). rewrite !app_assoc. repeat split.
    apply Forall2_app.
    + eapply Forall2_impl; [|exact H1].
      intros i l (line & Hin & Hg). exists line. split; [|exact Hg].
      cbn [concat]. apply in_app_iff. now left.
    + eapply Forall2_impl; [|exact H2].
      intros i l (line & Hin & Hg). exists line. split; [|exact Hg].
      cbn [concat]. apply in_app_iff. now right.
Qed.

(** X17. When the loop over the label files of the DeiT notebook completes,
    the list of images and the list of labels have the same length and
    match position by position: the i-th image and the i-th label come from
    one line of a label file, whose image is a file that opens and whose
    second field is the label. *)
Theorem X17_images_and_labels_stay_aligned :
  forall (files_lines : list (list string)) (images : list ImagePath) (labels : list Z),
    read_label_files strip_split int ImagePath images_dir_div is_file open_image
                     files_lines [] []
    = Ok (images, labels) ->
    length images = length labels
    /\ Forall2 (fun image label =>
                  exists line relative_image_path label_text,
                    In line (concat files_lines)
                    /\ strip_split line = [relative_image_path; label_text]
                    /\ image = images_dir_div relative_image_path
                    /\ is_file image = true
                    /\ open_image image = true
                    /\ int label_text = Ok label)
               images labels.
Proof.
  intros files_lines images labels H.
  destruct (read_label_files_appends _ _ _ _ _ H) as (ni & nl & -> & -> & Hall).
  cbn [app]. split; [eapply Forall2_length; exact Hall|].
  eapply Forall2_impl; [|exact Hall].
  intros i l (line & Hin & rel & lab & Hg). exists line, rel, lab. tauto.
Qed.

End LabelFileFacts.

(** * More runs on sample data *)

Example class_names_of_the_deit_notebook :
  n_classes = 16
  /\ dict_get String.eqb "invoice" label2idx = Some 11
  /\ dict_get Nat.eqb 11 idx2label = Some "invoice"
  /\ map snd label2idx = seq 0 16.
Proof. repeat split. Qed.

Example lightgbm_predictions :
  predict_proba sample_predict tt = [[(1 - (3 # 4))%Q; 3 # 4]; [(1 - (1 # 4))%Q; 1 # 4]]
  /\ y_pred sample_predict tt = [1; 0].
Proof. split; reflexivity. Qed.

Lemma X2_ordering_is_idempotent_witness :
  pin_first_sort_rest ["Baseline"; "CW"; "ReducedX"; "ClassWiseReducedLongName"]
  = Ok ["Baseline"; "CW"; "ReducedX"; "ClassWiseReducedLongName"].
Proof.
  apply (X2_ordering_is_idempotent
           ["Baseline"; "ReducedX"; "ClassWiseReducedLongName"; "CW"]).
  reflexivity.
Defined.

Lemma X4_experiment_stays_in_its_directory_witness :
  lookup_file (OUTPUT_DIR // "combined_results" // "ece_results_summary_absolute.csv")
              (files world_after_deit)
  = lookup_file (OUTPUT_DIR // "combined_results" // "ece_results_summary_absolute.csv")
                (files empty_world).
Proof.
  apply (X4_experiment_stays_in_its_directory DeiT sample_results [] empty_world).
  intros name H. discriminate H.
Defined.

Lemma X6_no_results_file_nothing_written_witness :
  combine_results create_summary_table_with_absolute_values_and_stddev
                  create_summary_table_with_relative_change_and_stddev
                  empty_world
  = (Err ValueError, empty_world).
Proof.
  apply X6_no_results_file_nothing_written.
  intros p H. simpl in H. contradiction.
Defined.

Lemma X7_all_rows_filtered_nothing_written_witness :
  combine_results create_summary_table_with_absolute_values_and_stddev
                  create_summary_table_with_relative_change_and_stddev
                  world_of_dropped_rows
  = (Err IndexError, world_of_dropped_rows).
Proof.
  apply (X7_all_rows_filtered_nothing_written _ _ _ [condition_row; weighted_row]).
  - reflexivity.
  - intros r [<-|[<-|[]]].
    + left. left. reflexivity.
    + right. exists "Class-wise "%string, "WEIGHTED"%string, ""%string.
      split; reflexivity.
Defined.

Lemma X8_combining_leaves_the_results_files_witness :
  lookup_file (OUTPUT_DIR // "deit_rvl_cdip" // "results.csv")
              (files (snd (combine_results
                             create_summary_table_with_absolute_values_and_stddev
                             create_summary_table_with_relative_change_and_stddev
                             world_after_deit)))
  = lookup_file (OUTPUT_DIR // "deit_rvl_cdip" // "results.csv") (files world_after_deit).
Proof.
  apply (X8_combining_leaves_the_results_files
           create_summary_table_with_absolute_values_and_stddev
           create_summary_table_with_relative_change_and_stddev
           world_after_deit).
  reflexivity.
Defined.

Lemma X9_combining_twice_changes_nothing_witness :
  files (snd (combine_results
                create_summary_table_with_absolute_values_and_stddev
                create_summary_table_with_relative_change_and_stddev
                (snd (combine_results
                        create_summary_table_with_absolute_values_and_stddev
                        create_summary_table_with_relative_change_and_stddev
                        world_after_deit))))
  = files (snd (combine_results
                  create_summary_table_with_absolute_values_and_stddev
                  create_summary_table_with_relative_change_and_stddev
                  world_after_deit)).
Proof.
  apply (X9_combining_twice_changes_nothing
           create_summary_table_with_absolute_values_and_stddev
           create_summary_table_with_relative_change_and_stddev
           world_after_deit).
  vm_compute. repeat constructor; simpl; intuition discriminate.
Defined.

Lemma X10_plots_do_not_depend_on_the_summary_helpers_witness :
  lookup_file (OUTPUT_DIR // "combined_results" // "evaluation_ECE_multiple.eps")
              (files (snd (combine_results
                             create_summary_table_with_absolute_values_and_stddev
                             create_summary_table_with_relative_change_and_stddev
                             world_after_deit)))
  = lookup_file (OUTPUT_DIR // "combined_results" // "evaluation_ECE_multiple.eps")
                (files (snd (combine_results failing_summary failing_summary
                                             world_after_deit))).
Proof.
  apply (proj2 (X10_plots_do_not_depend_on_the_summary_helpers
                  create_summary_table_with_absolute_values_and_stddev
                  create_summary_table_with_relative_change_and_stddev
                  failing_summary failing_summary world_after_deit)).
  simpl. intuition discriminate.
Defined.

Lemma X13_rf_rows_go_to_one_plotting_call_witness :
  let r := rf_row "Synthetic Balanced" "BetaCalibration" "Baseline" "ECE" in
  let w' := snd (random_forest_synthetic rf_balanced_sample rf_imbalanced_sample
                                         empty_world) in
  exists c1 c2 c3,
    plot_calls w' = plot_calls empty_world ++ [c1; c2; c3]
    /\ (In r (plot_df c1) /\ ~ In r (plot_df c2) /\ ~ In r (plot_df c3)
        \/ ~ In r (plot_df c1) /\ In r (plot_df c2) /\ ~ In r (plot_df c3)
        \/ ~ In r (plot_df c1) /\ ~ In r (plot_df c2) /\ In r (plot_df c3))
    /\ (In r (plot_df c1) ->
        forall q df hue_order,
          lookup_file q (files w') = Some (PlotFile df hue_order) ->
          lookup_file q (files empty_world) = Some (PlotFile df hue_order) \/ ~ In r df).
Proof.
  apply (X13_rf_rows_go_to_one_plotting_call
           rf_balanced_sample rf_imbalanced_sample empty_world
           (rf_row "Synthetic Balanced" "BetaCalibration" "Baseline" "ECE")).
  - reflexivity.
  - simpl. left. reflexivity.
  - discriminate.
  - discriminate.
  - left. reflexivity.
Defined.

Lemma X14_booster_probabilities_are_complementary_witness :
  nth_error (y_pred sample_predict tt) 0 = Some 1.
Proof.
  destruct (X14_booster_probabilities_are_complementary
              unit sample_predict tt 0 (3 # 4) eq_refl)
    as (row & _ & _ & _ & _ & _ & _ & Hone & _).
  apply Hone. reflexivity.
Defined.

Lemma X15_lightgbm_notebook_stops_at_unbound_name_witness :
  first_cells (Experiment_of LightGBM) ["repository"; "notebooks"] (mkKernel [] [])
  = Err (Raised "NameError: name 'Path' is not defined").
Proof.
  apply (proj1 (X15_lightgbm_notebook_stops_at_unbound_name
                  ["repository"; "notebooks"] (mkKernel [] []))).
  simpl. intros H. exact H.
Defined.

Lemma X16_inverted_dict_looks_up_backwards_witness :
  dict_get Nat.eqb 15 idx2label = Some "memo".
Proof.
  apply (proj2 (X16_inverted_dict_looks_up_backwards
                  String.eqb Nat.eqb String.eqb_eq Nat.eqb_eq
                  label2idx_items "memo" 15)).
  - exact (seq_NoDup 16 0).
  - reflexivity.
Defined.

Lemma X17_images_and_labels_stay_aligned_witness :
  length ["a.png"; "b.png"] = length [3%Z; 3%Z]
  /\ Forall2 (fun image label =>
                exists line relative_image_path label_text,
                  In line (concat sample_label_files)
                  /\ sample_split line = [relative_image_path; label_text]
                  /\ image = relative_image_path
                  /\ true = true
                  /\ sample_opens image = true
                  /\ sample_int label_text = Ok label)
             ["a.png"; "b.png"] [3%Z; 3%Z].
Proof.
  apply (X17_images_and_labels_stay_aligned
           sample_split sample_int string (fun p => p) (fun _ => true) sample_opens
           sample_label_files).
  reflexivity.
Defined.

Lemma X12_combined_plots_show_kept_rows_only_witness :
  exists new_calls,
    plot_calls (snd (combine_results
                       create_summary_table_with_absolute_values_and_stddev
                       create_summary_table_with_relative_change_and_stddev
                       world_after_deit))
    = plot_calls world_after_deit ++ new_calls
    /\ forall c, In c new_calls ->
                 forall v, In v (plot_hue_order c) ->
                           ~ occurs_in_any_case "weighted" v.
Proof.
  destruct (X12_combined_plots_show_kept_rows_only
              create_summary_table_with_absolute_values_and_stddev
              create_summary_table_with_relative_change_and_stddev
              world_after_deit)
    as (new_calls & Hcalls & Hall).
  exists new_calls. split; [exact Hcalls|].
  intros c Hc. apply (Hall c Hc).
Defined.
